(** * Personal finance tracker (app.py): ledger, aggregation and export

    A shallow embedding of the Flask application [app.py].  The relational
    store is a pair of tables kept as lists in insertion order; every route
    is a function of the current user, the request and the store, returning
    a response and the store after commit.

    Conventions of the embedding:
    - a [db.Float] amount is a binary64 floating-point number ([float]),
      with its rounding, its two zeros, its infinities and its NaN;
    - the storage engine's [SUM] over REAL values and its execution of
      [ORDER BY] are parameters of the routes that use them;
    - an integer handed to the sqlite3 driver as a statement parameter must
      fit a signed 64-bit integer;
    - text is a [string] of 8-bit characters;
    - primary keys are natural numbers, allocated as SQLite does for an
      [INTEGER PRIMARY KEY] (largest key in the table plus one). *)

From Stdlib Require Import List String Ascii Bool Arith Lia ZArith QArith.
From Stdlib Require Import Permutation Sorted OrdersEx RelationClasses.
From Stdlib Require Import DecimalString.
From Stdlib Require Import PrimFloat SpecFloat FloatOps.
Import ListNotations.

Local Close Scope Q_scope.
Local Open Scope string_scope.
Local Open Scope list_scope.
Local Open Scope nat_scope.

(* ================================================================== *)
(** * Text: what SQLite and Python do to strings *)
(* ================================================================== *)

Module Text.

(** SQLite's [lower()]: only the 26 ASCII capitals are folded. *)
Definition lower_char (c : ascii) : ascii :=
  let n := nat_of_ascii c in
  if (65 <=? n) && (n <=? 90) then ascii_of_nat (n + 32) else c.

Fixpoint lower (s : string) : string :=
  match s with
  | EmptyString => EmptyString
  | String c s' => String (lower_char c) (lower s')
  end.

(** Python's [str.isspace] on the characters below 256. *)
Definition is_space (c : ascii) : bool :=
  let n := nat_of_ascii c in
  ((9 <=? n) && (n <=? 13)) || ((28 <=? n) && (n <=? 32))
  || (n =? 133) || (n =? 160).

Fixpoint lstrip (s : string) : string :=
  match s with
  | EmptyString => EmptyString
  | String c s' => if is_space c then lstrip s' else s
  end.

Fixpoint rstrip (s : string) : string :=
  match s with
  | EmptyString => EmptyString
  | String c s' =>
      match rstrip s' with
      | EmptyString => if is_space c then EmptyString else String c EmptyString
      | r => String c r
      end
  end.

(** [str.strip()] *)
Definition strip (s : string) : string := rstrip (lstrip s).

(** Python truthiness of a [str]. *)
Definition truthy (s : string) : bool :=
  match s with EmptyString => false | _ => true end.

Definition percent : ascii := "%"%char.
Definition underscore : ascii := "_"%char.

(** SQL [LIKE] without an escape character: [%] stands for any run of
    characters, [_] for exactly one, anything else for itself. *)
Fixpoint like (pat : string) : string -> bool :=
  match pat with
  | EmptyString =>
      fun txt => match txt with EmptyString => true | _ => false end
  | String p pat' =>
      if Ascii.eqb p percent then
        fix star (txt : string) : bool :=
          like pat' txt
          || match txt with
             | EmptyString => false
             | String _ txt' => star txt'
             end
      else if Ascii.eqb p underscore then
        fun txt =>
          match txt with
          | EmptyString => false
          | String _ txt' => like pat' txt'
          end
      else
        fun txt =>
          match txt with
          | EmptyString => false
          | String c txt' => Ascii.eqb p c && like pat' txt'
          end
  end.

(** SQLAlchemy renders [col.ilike(p)] for SQLite as
    [lower(col) LIKE lower(p)]. *)
Definition ilike (txt pat : string) : bool := like (lower pat) (lower txt).

(** The pattern built by the f-string [f"%{search_term}%"]. *)
Definition wrap (term : string) : string := ("%" ++ term ++ "%")%string.


(** [contains s t]: [s] occurs in [t] as a contiguous run. *)
Fixpoint contains (s t : string) : bool :=
  String.prefix s t
  || match t with
     | EmptyString => false
     | String _ t' => contains s t'
     end.



End Text.

(* ================================================================== *)
(** * Calendar dates *)
(* ================================================================== *)

Module Date.

(** [datetime.date]; Python keeps [1 <= year <= 9999]. *)
Record t := make { year : nat; month : nat; day : nat }.


(** Chronological comparison, as the engine compares two [Date] columns. *)
Definition compare (a b : t) : comparison :=
  match Nat.compare (year a) (year b) with
  | Eq =>
      match Nat.compare (month a) (month b) with
      | Eq => Nat.compare (day a) (day b)
      | c => c
      end
  | c => c
  end.

Definition leb (a b : t) : bool :=
  match compare a b with Gt => false | _ => true end.

Definition digit (n : nat) : ascii := ascii_of_nat (48 + n mod 10).

(** [%02d] *)
Definition pad2 (n : nat) : string :=
  String (digit (n / 10)) (String (digit n) EmptyString).

(** [%04d] *)
Definition pad4 (n : nat) : string :=
  String (digit (n / 1000)) (String (digit (n / 100))
    (String (digit (n / 10)) (String (digit n) EmptyString))).

(** [date.isoformat()] *)
Definition isoformat (d : t) : string :=
  (pad4 (year d) ++ "-" ++ pad2 (month d) ++ "-" ++ pad2 (day d))%string.

(** SQLite's [strftime('%Y-%m', d)] on the stored text of a date, which
    SQLAlchemy writes with a four-digit year. *)
Definition strftime_Ym (d : t) : string :=
  (pad4 (year d) ++ "-" ++ pad2 (month d))%string.

(** The decimal numeral of a number, without padding. *)
Definition decimal (n : nat) : string :=
  NilZero.string_of_uint (Nat.to_uint n).

(** Python's [d.strftime("%Y-%m-%d")]: the C library prints the year
    without padding, so a year below 1000 has fewer than four digits. *)
Definition strftime_Ymd (d : t) : string :=
  (decimal (year d) ++ "-" ++ pad2 (month d) ++ "-" ++ pad2 (day d))%string.

End Date.

(* ================================================================== *)
(** * Models *)
(* ================================================================== *)

Module Category.
Record t := make { id : nat; name : string; user_id : nat }.
End Category.

Module Transaction.
(** The [date] column is nullable in the schema, but the two routes that
    write it always store a date: the form's date field falls back to
    [date.today] or to the edited row's date and fails validation on
    unparsable input. *)
Record t := make {
  id : nat;
  amount : float;                (* REAL, NOT NULL *)
  type : string;                 (* 'income' or 'expense' *)
  description : option string;   (* nullable column *)
  date : Date.t;
  category_id : option nat;      (* nullable foreign key *)
  user_id : nat
}.

Definition set_category_id (c : option nat) (x : t) : t :=
  make (id x) (amount x) (type x) (description x) (date x) c (user_id x).
End Transaction.

(** The two tables the routes touch, rows in insertion order. *)
Record Db := mkDb {
  category_table : list Category.t;
  transaction_table : list Transaction.t
}.

(** Key handed out by SQLite for a new row. *)
Definition next_id (ids : list nat) : nat := S (fold_right Nat.max 0 ids).

(** The relationship attribute [t.category]: the row the foreign key points
    at, [None] when the key is NULL or points at no row. *)
Definition category_of (db : Db) (x : Transaction.t) : option Category.t :=
  match Transaction.category_id x with
  | None => None
  | Some k => find (fun c => Category.id c =? k) (category_table db)
  end.

(** [Transaction.query.filter_by(user_id=u)] *)
Definition transactions_of (db : Db) (u : nat) : list Transaction.t :=
  filter (fun x => Transaction.user_id x =? u) (transaction_table db).

(** [Category.query.filter_by(user_id=u).all()] *)
Definition categories_of (db : Db) (u : nat) : list Category.t :=
  filter (fun c => Category.user_id c =? u) (category_table db).

(** [Transaction.query.filter_by(id=tx_id, user_id=u).first()] *)
Definition get_transaction (db : Db) (u tx_id : nat) : option Transaction.t :=
  find (fun x => (Transaction.id x =? tx_id) && (Transaction.user_id x =? u))
       (transaction_table db).

(** [Category.query.filter_by(id=cat_id, user_id=u).first()] *)
Definition get_category (db : Db) (u cat_id : nat) : option Category.t :=
  find (fun c => (Category.id c =? cat_id) && (Category.user_id c =? u))
       (category_table db).

(* ================================================================== *)
(** * Query building blocks *)
(* ================================================================== *)

(** The largest integer the sqlite3 driver binds as a statement parameter:
    a Python [int] beyond the signed 64-bit range raises [OverflowError]
    when the statement is executed. *)
Definition sqlite_max : Z := 9223372036854775807.

(** The integers bound by the application are keys of a URL and row
    offsets, none of them negative. *)
Definition bindable (n : Z) : bool := (n <=? sqlite_max)%Z.

(** A value summed by a query of the application: a REAL amount, or the
    INTEGER literal 0 of the ELSE branch of a CASE. *)
Inductive summand : Type :=
| Real (a : float)
| Zero.

Definition is_real (v : summand) : bool :=
  match v with Real _ => true | Zero => false end.

Definition real_of (v : summand) : float :=
  match v with Real a => a | Zero => 0%float end.

(** SQL [SUM]: NULL over no rows; the INTEGER 0 when every value is the
    integer 0; otherwise a REAL, the floating-point sum [float_sum] that
    the engine accumulates over the values as it reads them, and NULL
    again when that sum is NaN, which SQLite hands back as NULL. *)
Definition sql_sum (float_sum : list float -> float) (l : list summand)
  : option summand :=
  match l with
  | [] => None
  | _ =>
      if existsb is_real l
      then let s := float_sum (map real_of l) in
           if is_nan s then None else Some (Real s)
      else Some Zero
  end.

(** Python's [x or 0] on a fetched sum: [None], the int 0 and the floats
    [0.0] and [-0.0] are falsy and give 0. *)
Definition or_zero (x : option summand) : float :=
  match x with
  | Some (Real s) => if (s =? 0)%float then 0%float else s
  | Some Zero => 0%float
  | None => 0%float
  end.

(** Three-valued conditions of a WHERE clause. *)
Definition sql_ilike (col : option string) (pat : string) : option bool :=
  match col with
  | Some s => Some (Text.ilike s pat)
  | None => None
  end.

Definition sql_or (a b : option bool) : option bool :=
  match a, b with
  | Some true, _ => Some true
  | _, Some true => Some true
  | Some false, Some false => Some false
  | _, _ => None
  end.

(** A row is kept when its condition is TRUE (not FALSE, not NULL). *)
Definition sql_true (c : option bool) : bool :=
  match c with Some true => true | _ => false end.

(** [q.join(Category, isouter=True)]: LEFT OUTER JOIN on
    [category.id = transaction.category_id]. *)
Definition join_category (cats : list Category.t) (txs : list Transaction.t)
  : list (Transaction.t * option Category.t) :=
  flat_map
    (fun x =>
       match filter (fun c => match Transaction.category_id x with
                              | Some k => Category.id c =? k
                              | None => false
                              end) cats with
       | [] => [(x, None)]
       | cs => map (fun c => (x, Some c)) cs
       end) txs.

(** The condition of [transactions]:
    [or_(description.ilike(p), type.ilike(p), Category.name.ilike(p))]. *)
Definition search_condition (pat : string)
  (row : Transaction.t * option Category.t) : option bool :=
  let (x, c) := row in
  sql_or (sql_or (sql_ilike (Transaction.description x) pat)
                 (sql_ilike (Some (Transaction.type x)) pat))
         (sql_ilike (option_map Category.name c) pat).

(** The filtered query of [transactions], before ordering. *)
Definition search (db : Db) (term : string) (q : list Transaction.t)
  : list Transaction.t :=
  map fst (filter (fun row => sql_true (search_condition (Text.wrap term) row))
                  (join_category (category_table db) q)).

(** What [ORDER BY transaction.date DESC] promises about its result: the
    same rows, later dates first.  The clause names no second key; the
    order among rows of equal date is the engine's. *)
Definition date_desc : list Transaction.t -> Prop :=
  StronglySorted
    (fun a b => Date.leb (Transaction.date b) (Transaction.date a) = true).

Definition order_by_contract
  (order_by : list Transaction.t -> list Transaction.t) : Prop :=
  forall rows, Permutation rows (order_by rows) /\ date_desc (order_by rows).

(** Flask-SQLAlchemy's [Pagination] object. *)
Record Pagination := mkPagination {
  items : list Transaction.t;
  page : Z;
  per_page : nat;
  total : nat
}.

(** [query.paginate(page=page, per_page=n)] with the default
    [error_out=True]: [None] stands for [abort(404)], raised when
    [page < 1], or when the page holds no item and is not page 1.
    [ordered] is the query with its ORDER BY applied; the items are its
    [LIMIT n OFFSET (page - 1) * n] slice, the total is its row count.
    The offset is a statement parameter: [serve_transactions] below puts
    the driver's check of it in front of the slice. *)
Definition paginate (ordered : list Transaction.t) (page : Z) (n : nat)
  : option Pagination :=
  if (page <? 1)%Z then None
  else
    let its := firstn n (skipn ((Z.to_nat page - 1) * n) ordered) in
    match its with
    | [] => if (page =? 1)%Z
            then Some (mkPagination its page n (List.length ordered))
            else None
    | _ => Some (mkPagination its page n (List.length ordered))
    end.

(** GROUP BY on a text key followed by ORDER BY on the same key: the
    distinct keys in ascending binary order. *)
Fixpoint insert_key (k : string) (l : list string) : list string :=
  match l with
  | [] => [k]
  | h :: r =>
      match String_as_OT.compare k h with
      | Lt => k :: l
      | Eq => l
      | Gt => h :: insert_key k r
      end
  end.

Definition group_keys (ks : list string) : list string :=
  fold_right insert_key [] ks.

(** [case((Transaction.type == ty, Transaction.amount), else_=0)] *)
Definition case_type (ty : string) (x : Transaction.t) : summand :=
  if String.eqb (Transaction.type x) ty
  then Real (Transaction.amount x) else Zero.

(* ================================================================== *)
(** * Forms *)
(* ================================================================== *)

(** One field of a submitted form: not sent, sent but not convertible by
    the field's type, or sent with a value. *)
Inductive Raw (A : Type) : Type :=
| Absent
| Malformed
| Given (a : A).

Arguments Absent {A}.
Arguments Malformed {A}.
Arguments Given {A} a.

(** A request as a form route sees it. *)
Inductive Request (F : Type) : Type :=
| Get
| Post (form : F).

Arguments Get {F}.
Arguments Post {F} form.

(** [Field.process]: the field's data starts from the object or default and
    is overwritten by submitted input; the flag reports a process error. *)
Definition process {A : Type} (initial : option A) (raw : Raw A)
  : option A * bool :=
  match raw with
  | Absent => (initial, false)
  | Malformed => (None, true)
  | Given a => (Some a, false)
  end.

Module TransactionForm.

(** The body of a POST to [TransactionForm]. *)
Record post := mkPost {
  csrf_ok : bool;                 (* Flask-WTF's CSRF token check *)
  amount : Raw float;             (* FloatField: Python's [float(text)] *)
  type : option string;           (* SelectField, coerce=str *)
  category : Raw nat;             (* SelectField, coerce=int *)
  date : Raw Date.t;              (* DateField, format %Y-%m-%d *)
  description : option string     (* TextAreaField *)
}.

(** What the fields start from: the edited object, or the field defaults. *)
Record initial := mkInitial {
  amount0 : option float;
  type0 : option string;
  date0 : Date.t;
  description0 : option string
}.

(** Data of a form that passed [validate_on_submit]. *)
Record data := mkData {
  amount_data : float;
  type_data : string;
  category_data : nat;
  date_data : Date.t;
  description_data : option string
}.

Definition type_choices : list string := ["expense"; "income"].

(** [amount]: no process error, then [DataRequired], which refuses a falsy
    value: [0.0] and [-0.0].  NaN and the infinities are truthy.  There is
    no range validator. *)
Definition check_amount (init : initial) (p : post) : option float :=
  match process (amount0 init) (amount p) with
  | (Some a, false) => if (a =? 0)%float then None else Some a
  | _ => None
  end.

(** [type]: must be one of the field's choices. *)
Definition check_type (init : initial) (p : post) : option string :=
  match (match type p with Some s => Some s | None => type0 init end) with
  | Some s => if existsb (String.eqb s) type_choices then Some s else None
  | None => None
  end.

(** [category]: [coerce=int], then the value must be among [choices]; the
    field never starts from a usable value, so it must be submitted. *)
Definition check_category (choices : list nat) (p : post) : option nat :=
  match process None (category p) with
  | (Some c, false) => if existsb (Nat.eqb c) choices then Some c else None
  | _ => None
  end.

(** [date]: no validator; only a process error fails it. *)
Definition check_date (init : initial) (p : post) : option Date.t :=
  match process (Some (date0 init)) (date p) with
  | (Some d, false) => Some d
  | _ => None
  end.

Definition description_of (init : initial) (p : post) : option string :=
  match description p with Some s => Some s | None => description0 init end.

Definition failed {A : Type} (name : string) (r : option A) : list string :=
  match r with Some _ => [] | None => [name] end.

(** [form.validate_on_submit()] on a POST: the validated data, or the names
    of the fields that carry errors, in the order of the form's fields, the
    CSRF token being its last. *)
Definition validate (choices : list nat) (init : initial) (p : post)
  : list string + data :=
  match csrf_ok p, check_amount init p, check_type init p,
        check_category choices p, check_date init p with
  | true, Some a, Some ty, Some c, Some d =>
      inr (mkData a ty c d (description_of init p))
  | _, a, ty, c, d =>
      inl (failed "amount" a ++ failed "type" ty
           ++ failed "category" c ++ failed "date" d
           ++ (if csrf_ok p then [] else ["csrf_token"]))
  end.

End TransactionForm.

Module CategoryForm.

Record post := mkPost {
  csrf_ok : bool;
  name : option string     (* StringField *)
}.

(** [DataRequired()] then [Length(1, 64)]. *)
Definition check_name (init : option string) (p : post) : option string :=
  match (match name p with Some s => Some s | None => init end) with
  | Some s =>
      if Text.truthy (Text.strip s)
         && (1 <=? String.length s) && (String.length s <=? 64)
      then Some s else None
  | None => None
  end.

Definition validate (init : option string) (p : post) : list string + string :=
  match csrf_ok p, check_name init p with
  | true, Some s => inr s
  | _, r =>
      inl (TransactionForm.failed "name" r
           ++ (if csrf_ok p then [] else ["csrf_token"]))
  end.

End CategoryForm.

(* ================================================================== *)
(** * CSV writer *)
(* ================================================================== *)

Module Csv.

(** A value handed to [csv.writer.writerow]. *)
Inductive cell : Type :=
| Str (s : string)
| Float (a : float).

Definition dquote : ascii := ascii_of_nat 34.
Definition comma : ascii := ","%char.
Definition cr : ascii := ascii_of_nat 13.
Definition lf : ascii := ascii_of_nat 10.

Fixpoint exists_char (f : ascii -> bool) (s : string) : bool :=
  match s with
  | EmptyString => false
  | String c s' => f c || exists_char f s'
  end.

(** QUOTE_MINIMAL: a field is quoted when it holds the delimiter, the quote
    character or a line break. *)
Definition needs_quotes (s : string) : bool :=
  exists_char (fun c => Ascii.eqb c comma || Ascii.eqb c dquote
                        || Ascii.eqb c cr || Ascii.eqb c lf) s.

(** Quote characters inside a quoted field are doubled. *)
Fixpoint escape (s : string) : string :=
  match s with
  | EmptyString => EmptyString
  | String c s' =>
      if Ascii.eqb c dquote then String dquote (String dquote (escape s'))
      else String c (escape s')
  end.

Definition field (s : string) : string :=
  if needs_quotes s
  then String dquote (escape s ++ String dquote EmptyString)%string
  else s.

Section Writer.

(** [repr] of a float, as the writer prints a number. *)
Variable repr_float : float -> string.

Definition render (c : cell) : string :=
  match c with
  | Str s => field s
  | Float a => field (repr_float a)
  end.

Fixpoint join (fs : list string) : string :=
  match fs with
  | [] => EmptyString
  | [f] => f
  | f :: r => (f ++ String comma (join r))%string
  end.

(** [writerow]: the fields joined by commas, ended by CR LF. *)
Definition writerow (r : list cell) : string :=
  (join (map render r) ++ String cr (String lf EmptyString))%string.

Definition write (rows : list (list cell)) : string :=
  fold_right (fun r acc => (writerow r ++ acc)%string) EmptyString rows.

End Writer.

End Csv.

(* ================================================================== *)
(** * Routes *)
(* ================================================================== *)

Record SummaryEntry := mkSummaryEntry {
  period : string;
  income : float;
  expense : float
}.

Inductive Response : Type :=
| NotFound                                   (* abort(404) *)
| ServerError                                (* uncaught exception: 500 *)
| Redirect (endpoint flash : string)
| RenderDashboard (transactions : list Transaction.t)
                  (income expense balance : float)
| RenderListing (transactions : Pagination)
| RenderTransactionForm (template : string) (errors : list string)
                        (transaction : option Transaction.t)
| RenderCategoryForm (template : string) (errors : list string)
                     (category : option Category.t)
| SendFile (mimetype download_name body : string)
| Json (summary : list SummaryEntry).

(** Query string of a GET: [page] after [type=int] (a missing or
    non-integer value leaves [None]) and [q]. *)
Record Args := mkArgs {
  arg_page : option Z;
  arg_q : option string
}.

Definition header : list Csv.cell :=
  [Csv.Str "Date"; Csv.Str "Type"; Csv.Str "Amount"; Csv.Str "Category";
   Csv.Str "Description"].

(** The list written for one transaction by [export_csv]. *)
Definition csv_row (db : Db) (x : Transaction.t) : list Csv.cell :=
  [Csv.Str (Date.isoformat (Transaction.date x));
   Csv.Str (Transaction.type x);
   Csv.Float (Transaction.amount x);
   Csv.Str (match category_of db x with
            | Some c => Category.name c
            | None => EmptyString
            end);
   Csv.Str (match Transaction.description x with
            | Some s => if Text.truthy s then s else EmptyString
            | None => EmptyString
            end)].

Section Routes.

(** The storage engine's execution of [ORDER BY transaction.date DESC]. *)
Variable order_by_date_desc : list Transaction.t -> list Transaction.t.

(** The storage engine's floating-point sum of the REAL values of a SUM,
    given in table order. *)
Variable float_sum : list float -> float.

(** [repr] of a float. *)
Variable repr_float : float -> string.

(** Totals of [dashboard]: [func.sum(Transaction.amount)] filtered by user
    and type, then [.scalar() or 0]. *)
Definition total_of (db : Db) (u : nat) (ty : string) : float :=
  or_zero
    (sql_sum float_sum
       (map (fun x => Real (Transaction.amount x))
            (filter (fun x => (Transaction.user_id x =? u)
                              && String.eqb (Transaction.type x) ty)
                    (transaction_table db)))).

(** Rows of the grouped query of [api_summary]. *)
Definition summary_rows (db : Db) (u : nat)
  : list (string * option summand * option summand) :=
  let mine := transactions_of db u in
  let ym x := Date.strftime_Ym (Transaction.date x) in
  map (fun k =>
         let grp := filter (fun x => String.eqb (ym x) k) mine in
         (k, sql_sum float_sum (map (case_type "income") grp),
             sql_sum float_sum (map (case_type "expense") grp)))
      (group_keys (map ym mine)).

(** [float(r.income or 0)] and [float(r.expense or 0)] for every row. *)
Definition monthly_series (db : Db) (u : nat) : list SummaryEntry :=
  map (fun r : string * option summand * option summand =>
         let '(ym, inc, exp) := r in
         mkSummaryEntry ym (or_zero inc) (or_zero exp))
      (summary_rows db u).

(** [/api/summary] *)
Definition api_summary (db : Db) (u : nat) : Response :=
  Json (monthly_series db u).

(** [/dashboard]; the balance is Python's float subtraction. *)
Definition dashboard (db : Db) (u : nat) : Response :=
  let transactions := firstn 10 (order_by_date_desc (transactions_of db u)) in
  let income := total_of db u "income" in
  let expense := total_of db u "expense" in
  let balance := (income - expense)%float in
  RenderDashboard transactions income expense balance.

(** The query of [/transactions] up to and including its ORDER BY. *)
Definition listing_query (db : Db) (u : nat) (args : Args)
  : list Transaction.t :=
  let search_term :=
    Text.strip (match arg_q args with Some s => s | None => EmptyString end) in
  let q := transactions_of db u in
  let q := if Text.truthy search_term then search db search_term q else q in
  order_by_date_desc q.

(** [/transactions], once the driver has taken the statement parameters. *)
Definition transactions (db : Db) (u : nat) (args : Args) : Response :=
  let page := match arg_page args with Some p => p | None => 1%Z end in
  match paginate (listing_query db u args) page 20 with
  | Some p => RenderListing p
  | None => NotFound
  end.

(** [/transactions] as the server answers it.  [paginate] refuses a page
    below 1 before any statement runs; for every other page the statement
    that fetches the items binds [OFFSET (page - 1) * 20], and an offset
    that the driver cannot bind ends the request with 500. *)
Definition serve_transactions (db : Db) (u : nat) (args : Args) : Response :=
  let page := match arg_page args with Some p => p | None => 1%Z end in
  if (1 <=? page)%Z && negb (bindable ((page - 1) * 20))
  then ServerError
  else transactions db u args.

(** Rows written by [/export/csv]; the route reads no query parameter. *)
Definition export_csv_rows (db : Db) (u : nat) : list (list Csv.cell) :=
  header :: map (csv_row db) (order_by_date_desc (transactions_of db u)).

(** [/export/csv] *)
Definition export_csv (db : Db) (u : nat) (args : Args) : Response :=
  SendFile "text/csv" "transactions.csv"
           (Csv.write repr_float (export_csv_rows db u)).

End Routes.

(** [form.category.data if form.category.data else None]: key 0 is falsy. *)
Definition category_or_none (c : nat) : option nat :=
  match c with 0 => None | _ => Some c end.

(** [form.category.choices = [(c.id, c.name) for c in categories]] *)
Definition category_choices (db : Db) (u : nat) : list nat :=
  map Category.id (categories_of db u).

(** [/transaction/add]; [today] is [date.today()], the date field's
    default.  The driver binds a NaN as NULL, which the NOT NULL constraint
    of [amount] refuses: the commit raises and the request ends with 500,
    nothing stored. *)
Definition add_transaction (db : Db) (u : nat) (today : Date.t)
  (req : Request TransactionForm.post) : Response * Db :=
  let choices := category_choices db u in
  match req with
  | Get => (RenderTransactionForm "add_transaction.html" [] None, db)
  | Post p =>
      let init := TransactionForm.mkInitial None None today None in
      match TransactionForm.validate choices init p with
      | inr d =>
          let x :=
            Transaction.make
              (next_id (map Transaction.id (transaction_table db)))
              (TransactionForm.amount_data d)
              (TransactionForm.type_data d)
              (TransactionForm.description_data d)
              (TransactionForm.date_data d)
              (category_or_none (TransactionForm.category_data d))
              u in
          if is_nan (Transaction.amount x)
          then (ServerError, db)
          else (Redirect "transactions" "Transaction added",
                mkDb (category_table db) (transaction_table db ++ [x]))
      | inl errs =>
          (RenderTransactionForm "add_transaction.html" errs None, db)
      end
  end.

(** Assignment of the form data to the loaded row. *)
Definition update_transaction (d : TransactionForm.data) (x : Transaction.t)
  : Transaction.t :=
  Transaction.make (Transaction.id x)
    (TransactionForm.amount_data d)
    (TransactionForm.type_data d)
    (TransactionForm.description_data d)
    (TransactionForm.date_data d)
    (category_or_none (TransactionForm.category_data d))
    (Transaction.user_id x).

(** [/transaction/edit/<int:tx_id>]; an update to a NaN amount fails at
    commit as a create does. *)
Definition edit_transaction (db : Db) (u tx_id : nat)
  (req : Request TransactionForm.post) : Response * Db :=
  match get_transaction db u tx_id with
  | None => (NotFound, db)
  | Some x =>
      let choices := category_choices db u in
      match req with
      | Get => (RenderTransactionForm "edit_transaction.html" [] (Some x), db)
      | Post p =>
          let init :=
            TransactionForm.mkInitial
              (Some (Transaction.amount x)) (Some (Transaction.type x))
              (Transaction.date x) (Transaction.description x) in
          match TransactionForm.validate choices init p with
          | inr d =>
              if is_nan (TransactionForm.amount_data d)
              then (ServerError, db)
              else
                (Redirect "transactions" "Transaction updated successfully.",
                 mkDb (category_table db)
                      (map (fun y => if Transaction.id y =? Transaction.id x
                                     then update_transaction d y else y)
                           (transaction_table db)))
          | inl errs =>
              (RenderTransactionForm "edit_transaction.html" errs (Some x), db)
          end
      end
  end.

(** [/transaction/delete/<int:tx_id>] *)
Definition delete_transaction (db : Db) (u tx_id : nat) : Response * Db :=
  match get_transaction db u tx_id with
  | None => (NotFound, db)
  | Some x =>
      (Redirect "transactions" "Transaction deleted.",
       mkDb (category_table db)
            (filter (fun y => negb (Transaction.id y =? Transaction.id x))
                    (transaction_table db)))
  end.

(** [/category/add] *)
Definition add_category (db : Db) (u : nat)
  (req : Request CategoryForm.post) : Response * Db :=
  match req with
  | Get => (RenderCategoryForm "add_category.html" [] None, db)
  | Post p =>
      match CategoryForm.validate None p with
      | inr nm =>
          let c :=
            Category.make (next_id (map Category.id (category_table db)))
                          nm u in
          (Redirect "add_transaction" "Category added",
           mkDb (category_table db ++ [c]) (transaction_table db))
      | inl errs => (RenderCategoryForm "add_category.html" errs None, db)
      end
  end.

(** [/category/edit/<int:cat_id>]; the template is given the form only. *)
Definition edit_category (db : Db) (u cat_id : nat)
  (req : Request CategoryForm.post) : Response * Db :=
  match get_category db u cat_id with
  | None => (NotFound, db)
  | Some c =>
      match req with
      | Get => (RenderCategoryForm "edit_category.html" [] None, db)
      | Post p =>
          match CategoryForm.validate (Some (Category.name c)) p with
          | inr nm =>
              (Redirect "add_transaction" "Category updated.",
               mkDb (map (fun k => if Category.id k =? Category.id c
                                   then Category.make (Category.id k) nm
                                                      (Category.user_id k)
                                   else k)
                         (category_table db))
                    (transaction_table db))
          | inl errs =>
              (RenderCategoryForm "edit_category.html" errs None, db)
          end
      end
  end.

(** [/category/delete/<int:cat_id>].  [Category.transactions] is a
    relationship without a delete cascade: when the session flushes the
    deletion, the rows of [c.transactions] get [category_id = NULL] and are
    kept. *)
Definition delete_category (db : Db) (u cat_id : nat) : Response * Db :=
  match get_category db u cat_id with
  | None => (NotFound, db)
  | Some c =>
      (Redirect "add_transaction" "Category deleted.",
       mkDb (filter (fun k => negb (Category.id k =? Category.id c))
                    (category_table db))
            (map (fun y =>
                    match Transaction.category_id y with
                    | Some k => if k =? Category.id c
                                then Transaction.set_category_id None y
                                else y
                    | None => y
                    end)
                 (transaction_table db)))
  end.

(** The operations that change the store, as one request type. *)
Inductive Operation : Type :=
| AddTransaction (today : Date.t) (req : Request TransactionForm.post)
| EditTransaction (tx_id : nat) (req : Request TransactionForm.post)
| DeleteTransaction (tx_id : nat)
| AddCategory (req : Request CategoryForm.post)
| EditCategory (cat_id : nat) (req : Request CategoryForm.post)
| DeleteCategory (cat_id : nat).

(** The key that the URL of a request carries, if any.  The converter
    [<int:...>] takes any run of digits. *)
Definition url_key (op : Operation) : option nat :=
  match op with
  | EditTransaction i _ | DeleteTransaction i
  | EditCategory i _ | DeleteCategory i => Some i
  | AddTransaction _ _ | AddCategory _ => None
  end.

(** The routes once the key of the URL is bound. *)
Definition route (db : Db) (u : nat) (op : Operation) : Response * Db :=
  match op with
  | AddTransaction today req => add_transaction db u today req
  | EditTransaction i req => edit_transaction db u i req
  | DeleteTransaction i => delete_transaction db u i
  | AddCategory req => add_category db u req
  | EditCategory i req => edit_category db u i req
  | DeleteCategory i => delete_category db u i
  end.

(** A request as the server answers it.  The first statement of a route
    with a key in its URL is the [first_or_404] query, which binds the key:
    a key the driver cannot bind ends the request with 500 before any row
    is read or written. *)
Definition run (db : Db) (u : nat) (op : Operation) : Response * Db :=
  match url_key op with
  | Some i => if bindable (Z.of_nat i) then route db u op
              else (ServerError, db)
  | None => route db u op
  end.

(* ================================================================== *)
(** * A sample storage engine *)
(* ================================================================== *)

(** Insertion into a list that is already in date-descending order, in front
    of the first row that is not later than [x]. *)
Fixpoint insert_by_date (x : Transaction.t) (l : list Transaction.t)
  : list Transaction.t :=
  match l with
  | [] => [x]
  | h :: r =>
      if Date.leb (Transaction.date h) (Transaction.date x)
      then x :: l
      else h :: insert_by_date x r
  end.

(** A sort that keeps rows of equal date in table order. *)
Definition stable_order (rows : list Transaction.t) : list Transaction.t :=
  fold_right insert_by_date [] rows.

(** A sum that adds the values one after the other, starting from 0, every
    addition rounded to binary64. *)
Definition sequential_sum (l : list float) : float :=
  fold_left PrimFloat.add l 0%float.

(* ================================================================== *)
(** * Specification-side notions *)
(* ================================================================== *)

(** The caller [a] owns no transaction with key [i]: either no such row
    exists, or it belongs to somebody else.  Transactions and categories
    have keys of their own: what [a] owns under [i] in the other table is
    of no concern. *)
Definition owns_no_transaction (db : Db) (a i : nat) : Prop :=
  forall x, In x (transaction_table db) ->
            Transaction.id x = i -> Transaction.user_id x <> a.

(** The caller [a] owns no category with key [i]. *)
Definition owns_no_category (db : Db) (a i : nat) : Prop :=
  forall c, In c (category_table db) ->
            Category.id c = i -> Category.user_id c <> a.

(** Retrieve, update and delete requests aimed at transaction [i]. *)
Definition transaction_requests (i : nat)
  (tr : Request TransactionForm.post) : list Operation :=
  [EditTransaction i Get; EditTransaction i tr; DeleteTransaction i].

(** Retrieve, update and delete requests aimed at category [i]. *)
Definition category_requests (i : nat)
  (cr : Request CategoryForm.post) : list Operation :=
  [EditCategory i Get; EditCategory i cr; DeleteCategory i].

(** The rational number that a finite float stands for. *)
Definition exact (a : float) : option Q :=
  match Prim2SF a with
  | S754_zero _ => Some 0%Q
  | S754_finite sign m e =>
      let v := Qred (inject_Z (Zpos m) * Qpower 2 e)%Q in
      Some (if sign then Qopp v else v)
  | S754_infinity _ => None
  | S754_nan => None
  end.

(** The sum of a list of amounts as a sum of numbers, in the words of the
    specification. *)
Fixpoint exact_sum (l : list float) : option Q :=
  match l with
  | [] => Some 0%Q
  | a :: r =>
      match exact a, exact_sum r with
      | Some x, Some y => Some (x + y)%Q
      | _, _ => None
      end
  end.

(** The float [v] stands for the sum of the numbers in [l]. *)
Definition is_sum_of (v : float) (l : list float) : Prop :=
  exists x y, exact v = Some x /\ exact_sum l = Some y /\ (x == y)%Q.




(** The calendar month of a date: its year and its month. *)
Definition month_of (d : Date.t) : nat * nat := (Date.year d, Date.month d).



(** The label YYYY-MM of a calendar month. *)
Definition period_label (ym : nat * nat) : string :=
  (Date.pad4 (fst ym) ++ "-" ++ Date.pad2 (snd ym))%string.




(** Every category reference of a transaction points at a category of the
    transaction's own user. *)
Definition owned_references (db : Db) : Prop :=
  forall x k,
    In x (transaction_table db) -> Transaction.category_id x = Some k ->
    exists c, In c (category_table db)
              /\ Category.id c = k
              /\ Category.user_id c = Transaction.user_id x.

(** Primary keys are unique and category references stay within a user. *)
Definition consistent (db : Db) : Prop :=
  NoDup (map Category.id (category_table db))
  /\ NoDup (map Transaction.id (transaction_table db))
  /\ owned_references db.

(** A response that shows the transaction form again with an error on its
    category field. *)
Definition category_refused (r : Response) : Prop :=
  exists template errs obj,
    r = RenderTransactionForm template errs obj /\ In "category" errs.

(* ================================================================== *)
(** * Sample stores and requests *)
(* ================================================================== *)

Definition jan5 : Date.t := Date.make 2024 1 5.

Definition food : Category.t := Category.make 1 "Food" 1.

(** User 1 with one category and an empty ledger. *)
Definition fresh_store : Db := mkDb [food] [].

(** A well-formed submission of the transaction form with amount [a]. *)
Definition post_with_amount (a : float) : TransactionForm.post :=
  TransactionForm.mkPost true (Given a) (Some "expense") (Given 1)
                         (Given jan5) (Some "Groceries run").

Definition groceries : Transaction.t :=
  Transaction.make 1 25%float "expense" (Some "Groceries run") jan5
                   (Some 1) 1.

Definition rent : Transaction.t :=
  Transaction.make 2 900%float "expense" (Some "Rent") jan5 None 1.

(** User 1 with one category and two transactions. *)
Definition small_ledger : Db := mkDb [food] [groceries; rent].

(** User 1 with twenty-one transactions, all dated the same day. *)
Definition same_day_ledger : Db :=
  mkDb [] (map (fun i => Transaction.make i 1%float "expense" None jan5
                                          None 1)
               (seq 1 21)).

(** The rows shown by a listing response. *)
Definition page_items (r : Response) : list Transaction.t :=
  match r with
  | RenderListing p => items p
  | _ => []
  end.

(** The integer part of a finite float, 0 for the others. *)
Definition whole_part (a : float) : Z :=
  match Prim2SF a with
  | S754_finite sign m e =>
      let v := if (0 <=? e)%Z then (Zpos m * 2 ^ e)%Z
               else (Zpos m / 2 ^ (- e))%Z in
      if sign then (- v)%Z else v
  | _ => 0%Z
  end.

(** [repr] of a float that holds a whole number, as in [25.0]. *)
Definition repr_whole (a : float) : string :=
  (NilZero.string_of_int (Z.to_int (whole_part a)) ++ ".0")%string.

Definition crlf : string := String Csv.cr (String Csv.lf EmptyString).

(** A store in which key 7 is taken by user 2, for a transaction and for a
    category. *)
Definition others_store : Db :=
  mkDb [Category.make 7 "Travel" 2]
       [Transaction.make 7 10%float "expense" None jan5 (Some 7) 2].

(** The ledger of the monthly-series example of the specification. *)
Definition quarter_ledger : Db :=
  mkDb []
       [Transaction.make 1 100%float "income" None (Date.make 2024 1 5)
                         None 1;
        Transaction.make 2 30%float "expense" None (Date.make 2024 1 20)
                         None 1;
        Transaction.make 3 50%float "income" None (Date.make 2024 3 1)
                         None 1].

(** A store in which user 1 owns category 7 while transaction 7 belongs to
    user 2. *)
Definition shared_key_store : Db :=
  mkDb [Category.make 7 "Travel" 1]
       [Transaction.make 7 10%float "expense" None jan5 None 2].

(** The first key that the driver cannot bind. *)
Definition key_beyond : nat := Z.to_nat (sqlite_max + 1).

(** The floats nearest to 0.1, to 0.2 and to 0.3, and the float next above
    the last, which Python prints as 0.30000000000000004. *)
Definition tenth : float := 0x1.999999999999ap-4%float.
Definition fifth : float := 0x1.999999999999ap-3%float.
Definition three_tenths_up : float := 0x1.3333333333334p-2%float.


(* ================================================================== *)
(** * Users, registration and sessions *)
(* ================================================================== *)

Module User.
(** [password_hash] is set by [register], the only writer of the table. *)
Record t := make {
  id : nat;
  username : string;
  email : string;
  password_hash : string
}.
End User.

(** The whole store: the user table beside the two tables of [Db]. *)
Record App := mkApp {
  user_table : list User.t;
  store : Db
}.

(** Answers of the routes that need no login. *)
Inductive AuthResponse : Type :=
| AuthRedirect (endpoint : string) (flash : option string)
| AuthRender (template : string) (errors : list string)
             (flash : option string).

(** [DataRequired()] on a text field: the data is truthy and not blank. *)
Definition data_required (s : string) : bool :=
  Text.truthy s && Text.truthy (Text.strip s).

(** [Length(lo, hi)] *)
Definition length_between (lo hi : nat) (s : string) : bool :=
  (lo <=? String.length s) && (String.length s <=? hi).

Module LoginForm.

Record post := mkPost {
  csrf_ok : bool;
  username : option string;
  password : option string
}.

Definition check (r : option string) : option string :=
  match r with
  | Some s => if data_required s then Some s else None
  | None => None
  end.

Definition validate (p : post) : list string + (string * string) :=
  match csrf_ok p, check (username p), check (password p) with
  | true, Some n, Some w => inr (n, w)
  | _, n, w =>
      inl (TransactionForm.failed "username" n
           ++ TransactionForm.failed "password" w
           ++ (if csrf_ok p then [] else ["csrf_token"]))
  end.

End LoginForm.

Module RegistrationForm.

Record post := mkPost {
  csrf_ok : bool;
  username : option string;
  email : option string;
  password : option string;
  password2 : option string
}.

Record data := mkData {
  username_data : string;
  email_data : string;
  password_data : string
}.

(** [DataRequired(), Length(3,64)] *)
Definition check_username (p : post) : option string :=
  match username p with
  | Some s => if data_required s && length_between 3 64 s
              then Some s else None
  | None => None
  end.

(** [DataRequired(), Email()]; [email_ok] is the address check of the
    [Email] validator. *)
Definition check_email (email_ok : string -> bool) (p : post)
  : option string :=
  match email p with
  | Some s => if data_required s && email_ok s then Some s else None
  | None => None
  end.

(** [DataRequired(), Length(6,128)] *)
Definition check_password (p : post) : option string :=
  match password p with
  | Some s => if data_required s && length_between 6 128 s
              then Some s else None
  | None => None
  end.

(** [DataRequired(), EqualTo('password')]: compared with the data of the
    password field, valid or not. *)
Definition check_password2 (p : post) : option string :=
  match password2 p with
  | Some s =>
      if data_required s
         && match password p with
            | Some w => String.eqb s w
            | None => false
            end
      then Some s else None
  | None => None
  end.

Definition validate (email_ok : string -> bool) (p : post)
  : list string + data :=
  match csrf_ok p, check_username p, check_email email_ok p,
        check_password p, check_password2 p with
  | true, Some n, Some e, Some w, Some _ => inr (mkData n e w)
  | _, n, e, w, w2 =>
      inl (TransactionForm.failed "username" n
           ++ TransactionForm.failed "email" e
           ++ TransactionForm.failed "password" w
           ++ TransactionForm.failed "password2" w2
           ++ (if csrf_ok p then [] else ["csrf_token"]))
  end.

End RegistrationForm.

(** The default categories of a new account. *)
Definition default_categories : list string :=
  ["Food"; "Transport"; "Bills"; "Salary"; "Shopping"; "Other"].

(** The loop that adds one category per default name for user [uid]; each
    row takes the next key of the table. *)
Definition seed_categories (uid : nat) (cats : list Category.t)
  : list Category.t :=
  fold_left
    (fun acc nm =>
       acc ++ [Category.make (next_id (map Category.id acc)) nm uid])
    default_categories cats.

(** [load_user] applied to the session's user id: the logged-in user. *)
Definition current_user (app : App) (session : option nat) : option User.t :=
  match session with
  | Some i => find (fun u => User.id u =? i) (user_table app)
  | None => None
  end.

Section Auth.

(** werkzeug's [generate_password_hash], with the salt it draws made an
    argument, and [check_password_hash]. *)
Variable generate_password_hash : string -> string -> string.
Variable check_password_hash : string -> string -> bool.

(** The address check of the [Email()] validator. *)
Variable email_ok : string -> bool.

(** [/register] *)
Definition register (app : App) (salt : string)
  (req : Request RegistrationForm.post) : AuthResponse * App :=
  match req with
  | Get => (AuthRender "register.html" [] None, app)
  | Post p =>
      match RegistrationForm.validate email_ok p with
      | inr d =>
          match find (fun u =>
                        String.eqb (User.username u)
                                   (RegistrationForm.username_data d)
                        || String.eqb (User.email u)
                                      (RegistrationForm.email_data d))
                     (user_table app) with
          | Some _ =>
              (AuthRedirect "register"
                            (Some "Username or email already exists"), app)
          | None =>
              let u :=
                User.make (next_id (map User.id (user_table app)))
                          (RegistrationForm.username_data d)
                          (RegistrationForm.email_data d)
                          (generate_password_hash
                             salt (RegistrationForm.password_data d)) in
              (AuthRedirect "login" (Some "Account created. Please login."),
               mkApp (user_table app ++ [u])
                     (mkDb (seed_categories (User.id u)
                                            (category_table (store app)))
                           (transaction_table (store app))))
          end
      | inl errs => (AuthRender "register.html" errs None, app)
      end
  end.

(** [/login]; the second component is the session's user id afterwards. *)
Definition login (app : App) (session : option nat)
  (req : Request LoginForm.post) : AuthResponse * option nat :=
  match req with
  | Get => (AuthRender "login.html" [] None, session)
  | Post p =>
      match LoginForm.validate p with
      | inr (n, w) =>
          match find (fun u => String.eqb (User.username u) n)
                     (user_table app) with
          | Some u =>
              if check_password_hash (User.password_hash u) w
              then (AuthRedirect "dashboard" (Some "Welcome back!"),
                    Some (User.id u))
              else (AuthRender "login.html" [] (Some "Invalid credentials"),
                    session)
          | None =>
              (AuthRender "login.html" [] (Some "Invalid credentials"),
               session)
          end
      | inl errs => (AuthRender "login.html" errs None, session)
      end
  end.

End Auth.

(** [/logout], behind [login_required]: without a logged-in user the login
    manager redirects to [login_view]. *)
Definition logout (app : App) (session : option nat)
  : AuthResponse * option nat :=
  match current_user app session with
  | Some _ => (AuthRedirect "index" (Some "Logged out"), None)
  | None =>
      (AuthRedirect "login" (Some "Please log in to access this page."),
       session)
  end.

(** [/] *)
Definition index (app : App) (session : option nat) : AuthResponse :=
  match current_user app session with
  | Some _ => AuthRedirect "dashboard" None
  | None => AuthRender "index.html" [] None
  end.


(* ================================================================== *)
(** * PDF export *)
(* ================================================================== *)

Module Pdf.

(** The calls made on the reportlab canvas. *)
Inductive op : Type :=
| SetFont (name : string) (size : nat)
| DrawString (x : nat) (y : Z) (text : string)
| ShowPage
| Save.

End Pdf.

(** [str.capitalize()] on ASCII text: first letter upper case, the rest
    lower case. *)
Definition upper_char (c : ascii) : ascii :=
  let n := nat_of_ascii c in
  if (97 <=? n) && (n <=? 122) then ascii_of_nat (n - 32) else c.

Definition capitalize (s : string) : string :=
  match s with
  | EmptyString => EmptyString
  | String c r => String (upper_char c) (Text.lower r)
  end.

Definition x_positions : list nat := [50; 150; 220; 290; 400].

Definition pdf_headers : list string :=
  ["Date"; "Type"; "Amount"; "Category"; "Description"].

(** [p.drawString(x_positions[i], y, ...)] for the columns of one line. *)
Definition draw_line (y : Z) (cells : list string) : list Pdf.op :=
  map (fun xs : nat * string => Pdf.DrawString (fst xs) y (snd xs))
      (combine x_positions cells).

Section PdfRoute.

Variable order_by_date_desc : list Transaction.t -> list Transaction.t.

(** [f"{amount:.2f}"] *)
Variable format_2f : float -> string.

(** reportlab's rendering of the canvas calls into the bytes of the file. *)
Variable render_pdf : list Pdf.op -> string.

(** The five texts of a transaction's line. *)
Definition pdf_cells (db : Db) (x : Transaction.t) : list string :=
  [Date.strftime_Ymd (Transaction.date x);
   capitalize (Transaction.type x);
   format_2f (Transaction.amount x);
   match category_of db x with
   | Some c => Category.name c
   | None => EmptyString
   end;
   match Transaction.description x with
   | Some s => if Text.truthy s then s else EmptyString
   | None => EmptyString
   end].

(** One turn of the loop over the transactions: the state is the vertical
    position [y] and the calls made so far. *)
Definition pdf_step (db : Db) (st : Z * list Pdf.op) (x : Transaction.t)
  : Z * list Pdf.op :=
  let (y, ops) := st in
  let (y, ops) :=
    if (y <? 50)%Z then (800%Z, ops ++ [Pdf.ShowPage]) else (y, ops) in
  ((y - 15)%Z, ops ++ draw_line y (pdf_cells db x)).

(** The canvas calls of [/export/pdf]. *)
Definition export_pdf_ops (db : Db) (u : nat) : list Pdf.op :=
  let title :=
    [Pdf.SetFont "Helvetica-Bold" 16;
     Pdf.DrawString 100 800 "Transaction History";
     Pdf.SetFont "Helvetica-Bold" 12] in
  let y := 770%Z in
  let head := draw_line y pdf_headers ++ [Pdf.SetFont "Helvetica" 10] in
  let y := (y - 20)%Z in
  let txs := order_by_date_desc (transactions_of db u) in
  snd (fold_left (pdf_step db) txs (y, title ++ head))
  ++ [Pdf.ShowPage; Pdf.Save].

(** [/export/pdf] *)
Definition export_pdf (db : Db) (u : nat) : Response :=
  SendFile "application/pdf" "transactions.pdf"
           (render_pdf (export_pdf_ops db u)).

End PdfRoute.

(** The calls the loop adds for a list of transactions whose lines start at
    [y]; [cells] gives the texts of a line. *)
Fixpoint pdf_lines (cells : Transaction.t -> list string) (y : Z)
  (txs : list Transaction.t) : list Pdf.op :=
  match txs with
  | [] => []
  | x :: r =>
      if (y <? 50)%Z
      then Pdf.ShowPage :: draw_line 800 (cells x)
                        ++ pdf_lines cells (800 - 15) r
      else draw_line y (cells x) ++ pdf_lines cells (y - 15) r
  end.

(** Number of page breaks among canvas calls. *)
Definition page_breaks (ops : list Pdf.op) : nat :=
  List.length (filter (fun o => match o with Pdf.ShowPage => true
                                           | _ => false end) ops).

(** The texts drawn, in drawing order. *)
Definition drawn_texts (ops : list Pdf.op) : list string :=
  flat_map (fun o => match o with
                     | Pdf.DrawString _ _ s => [s]
                     | _ => []
                     end) ops.

(** A sample of [f"{amount:.2f}"] for whole amounts, as in [25.00]. *)
Definition format_whole (a : float) : string :=
  (NilZero.string_of_int (Z.to_int (whole_part a)) ++ ".00")%string.


(* ================================================================== *)
(** * Further notions used in statements *)
(* ================================================================== *)

(** Text made of white space only. *)
Fixpoint blank (s : string) : bool :=
  match s with
  | EmptyString => true
  | String c r => Text.is_space c && blank r
  end.



(** A toy password scheme: the hash is the password itself. *)
Definition toy_hash (salt password : string) : string := password.

Definition toy_check (hash password : string) : bool :=
  String.eqb hash password.

(** A toy address check: an address must hold an at sign. *)
Definition toy_email_ok (s : string) : bool :=
  Text.contains "@" s.

(** A registration of a new account. *)
Definition alice_post : RegistrationForm.post :=
  RegistrationForm.mkPost true (Some "alice") (Some "alice@example.org")
                          (Some "s3cret!") (Some "s3cret!").

(** An application with no account yet. *)
Definition empty_app : App := mkApp [] (mkDb [] []).



(** A description with a comma, a quote and a line break in it. *)
Definition awkward : Transaction.t :=
  Transaction.make 3 12%float "expense"
    (Some (String "a" (String "," (String Csv.dquote
             (String Csv.lf (String "b" EmptyString))))))
    jan5 None 1.


(* ================================================================== *)
(** * Ownership isolation *)
(* ================================================================== *)

Section Isolation.

Lemma get_transaction_unowned (db : Db) (a i : nat) :
  owns_no_transaction db a i -> get_transaction db a i = None.
Proof.
  intros Htx. unfold get_transaction.
  destruct (find _ (transaction_table db)) as [x|] eqn:E; [|reflexivity].
  apply find_some in E. destruct E as [Hin Hb].
  apply andb_true_iff in Hb. destruct Hb as [Hi Hu].
  apply Nat.eqb_eq in Hi, Hu.
  exfalso. exact (Htx x Hin Hi Hu).
Qed.

Lemma get_category_unowned (db : Db) (a i : nat) :
  owns_no_category db a i -> get_category db a i = None.
Proof.
  intros Hc. unfold get_category.
  destruct (find _ (category_table db)) as [c|] eqn:E; [|reflexivity].
  apply find_some in E. destruct E as [Hin Hb].
  apply andb_true_iff in Hb. destruct Hb as [Hi Hu].
  apply Nat.eqb_eq in Hi, Hu.
  exfalso. exact (Hc c Hin Hi Hu).
Qed.

Lemma route_transaction_unowned (db : Db) (a i : nat)
  (tr : Request TransactionForm.post) (op : Operation) :
  owns_no_transaction db a i -> In op (transaction_requests i tr) ->
  url_key op = Some i /\ route db a op = (NotFound, db).
Proof.
  intros Hun Hop.
  pose proof (get_transaction_unowned db a i Hun) as Ht.
  unfold transaction_requests in Hop. cbn [In] in Hop.
  repeat (destruct Hop as [<- | Hop]); try contradiction;
    cbn [url_key route]; unfold edit_transaction, delete_transaction;
    rewrite Ht; split; reflexivity.
Qed.

Lemma route_category_unowned (db : Db) (a i : nat)
  (cr : Request CategoryForm.post) (op : Operation) :
  owns_no_category db a i -> In op (category_requests i cr) ->
  url_key op = Some i /\ route db a op = (NotFound, db).
Proof.
  intros Hun Hop.
  pose proof (get_category_unowned db a i Hun) as Hc.
  unfold category_requests in Hop. cbn [In] in Hop.
  repeat (destruct Hop as [<- | Hop]); try contradiction;
    cbn [url_key route]; unfold edit_category, delete_category;
    rewrite Hc; split; reflexivity.
Qed.

Lemma run_refused (db : Db) (a i : nat) (op : Operation) :
  url_key op = Some i -> route db a op = (NotFound, db) ->
  run db a op
  = (if bindable (Z.of_nat i) then NotFound else ServerError, db).
Proof.
  intros Hk Hr. unfold run. rewrite Hk, Hr.
  destruct (bindable (Z.of_nat i)); reflexivity.
Qed.

Lemma bindable_spec (n : Z) : bindable n = true <-> (n <= sqlite_max)%Z.
Proof.
  unfold bindable. apply Z.leb_le.
Qed.

Lemma key_beyond_unbindable : bindable (Z.of_nat key_beyond) = false.
Proof.
  unfold key_beyond. rewrite Z2Nat.id by (unfold sqlite_max; lia).
  reflexivity.
Qed.

(** The counterexample to C1: no transaction has the key 2^63, in the empty
    ledger as in any other, and user 1's delete request on it is answered
    500, not 404: the driver refuses the key before the ownership query
    runs. *)
Lemma key_beyond_sqlite_is_500 :
  Z.of_nat key_beyond = 9223372036854775808%Z
  /\ owns_no_transaction fresh_store 1 key_beyond
  /\ run fresh_store 1 (DeleteTransaction key_beyond)
     = (ServerError, fresh_store)
  /\ fst (run fresh_store 1 (DeleteTransaction key_beyond)) <> NotFound.
Proof.
  assert (Hrun : run fresh_store 1 (DeleteTransaction key_beyond)
                 = (ServerError, fresh_store)).
  { unfold run. cbn [url_key]. rewrite key_beyond_unbindable. reflexivity. }
  split; [unfold key_beyond; rewrite Z2Nat.id; [reflexivity|]; 
          unfold sqlite_max; lia|].
  split; [intros x []|].
  split; [exact Hrun|].
  rewrite Hrun. discriminate.
Qed.

(** C1, amended. Let [op] be one of user [a]'s retrieve, update and delete
    requests on transaction [i], where [a] owns no transaction with key [i]
    in [db1] nor in [db2] -- for instance because the key is free in one and
    taken by another user in the other -- or one of [a]'s requests on
    category [i], where [a] owns no category with key [i] in either.  Then
    the request leaves the store as it was and is answered the same in
    [db1] and in [db2]: with 404 Not Found when the key is at most
    2^63 - 1, with 500 when it is larger. *)
Theorem ownership_isolation
  (db1 db2 : Db) (a i : nat)
  (tr : Request TransactionForm.post) (cr : Request CategoryForm.post)
  (op : Operation) :
  (In op (transaction_requests i tr)
   /\ owns_no_transaction db1 a i /\ owns_no_transaction db2 a i)
  \/ (In op (category_requests i cr)
      /\ owns_no_category db1 a i /\ owns_no_category db2 a i) ->
  snd (run db1 a op) = db1
  /\ snd (run db2 a op) = db2
  /\ fst (run db1 a op) = fst (run db2 a op)
  /\ ((Z.of_nat i <= sqlite_max)%Z -> fst (run db1 a op) = NotFound)
  /\ ((sqlite_max < Z.of_nat i)%Z -> fst (run db1 a op) = ServerError).
Proof.
  intros H.
  assert (Hr : url_key op = Some i
               /\ route db1 a op = (NotFound, db1)
               /\ route db2 a op = (NotFound, db2)).
  { destruct H as [[Hop [H1 H2]] | [Hop [H1 H2]]].
    - destruct (route_transaction_unowned db1 a i tr op H1 Hop) as [Hk Hr1].
      destruct (route_transaction_unowned db2 a i tr op H2 Hop) as [_ Hr2].
      auto.
    - destruct (route_category_unowned db1 a i cr op H1 Hop) as [Hk Hr1].
      destruct (route_category_unowned db2 a i cr op H2 Hop) as [_ Hr2].
      auto. }
  destruct Hr as [Hk [Hr1 Hr2]].
  rewrite (run_refused db1 a i op Hk Hr1), (run_refused db2 a i op Hk Hr2).
  cbn [fst snd].
  split; [reflexivity|]. split; [reflexivity|]. split; [reflexivity|].
  split; intros Hi.
  - apply bindable_spec in Hi. rewrite Hi. reflexivity.
  - destruct (bindable (Z.of_nat i)) eqn:E; [|reflexivity].
    apply bindable_spec in E. lia.
Qed.

End Isolation.

(* ================================================================== *)
(** * Totals and balance *)
(* ================================================================== *)

Section Totals.

Variable float_sum : list float -> float.






(** The numbers behind the sample amounts: 0.1 is stored as
    3602879701896397 / 2^55, 0.2 as twice that, and the float printed as
    0.30000000000000004 is 1351079888211149 / 2^52, while the two amounts
    add up to 10808639105689191 / 2^55. *)
Lemma sample_amounts_exact :
  exact tenth = Some (3602879701896397 # 36028797018963968)%Q
  /\ exact fifth = Some (3602879701896397 # 18014398509481984)%Q
  /\ exact three_tenths_up = Some (1351079888211149 # 4503599627370496)%Q
  /\ exists y, exact_sum [tenth; fifth] = Some y
               /\ (y == 10808639105689191 # 36028797018963968)%Q.
Proof.
  split; [vm_compute; reflexivity|].
  split; [vm_compute; reflexivity|].
  split; [vm_compute; reflexivity|].
  eexists. split; [vm_compute; reflexivity|]. vm_compute. reflexivity.
Qed.


End Totals.


(* ================================================================== *)
(** * Periods follow the calendar *)
(* ================================================================== *)

Section Calendar.







End Calendar.

(* ================================================================== *)
(** * Monthly series *)
(* ================================================================== *)

Section Monthly.

Variable float_sum : list float -> float.











Lemma period_label_month_of (d : Date.t) :
  period_label (month_of d) = Date.strftime_Ym d.
Proof.
  reflexivity.
Qed.





End Monthly.

(* ================================================================== *)
(** * Validation of the amount on create *)
(* ================================================================== *)

Section CreateAmount.

Lemma check_amount_given (init : TransactionForm.initial)
  (p : TransactionForm.post) (a : float) :
  TransactionForm.amount p = Given a ->
  TransactionForm.check_amount init p
  = if (a =? 0)%float then None else Some a.
Proof.
  intros H. unfold TransactionForm.check_amount. rewrite H. reflexivity.
Qed.

Lemma validate_amount_failed (choices : list nat)
  (init : TransactionForm.initial) (p : TransactionForm.post) :
  TransactionForm.check_amount init p = None ->
  exists errs,
    TransactionForm.validate choices init p = inl errs /\ In "amount" errs.
Proof.
  intros H. unfold TransactionForm.validate. rewrite H.
  destruct (TransactionForm.csrf_ok p);
    (eexists; split; [reflexivity|]);
    simpl; left; reflexivity.
Qed.

Lemma validate_inr_amount (choices : list nat)
  (init : TransactionForm.initial) (p : TransactionForm.post)
  (d : TransactionForm.data) :
  TransactionForm.validate choices init p = inr d ->
  TransactionForm.check_amount init p = Some (TransactionForm.amount_data d).
Proof.
  unfold TransactionForm.validate.
  destruct (TransactionForm.csrf_ok p);
    destruct (TransactionForm.check_amount init p);
    destruct (TransactionForm.check_type init p);
    destruct (TransactionForm.check_category choices p);
    destruct (TransactionForm.check_date init p);
    intros H; inversion H; reflexivity.
Qed.

Lemma check_amount_nonzero (init : TransactionForm.initial)
  (p : TransactionForm.post) (a : float) :
  TransactionForm.check_amount init p = Some a -> (a =? 0)%float = false.
Proof.
  unfold TransactionForm.check_amount.
  destruct (process _ _) as [[b|] []]; try discriminate.
  destruct (b =? 0)%float eqn:E; [discriminate|].
  intros H. inversion H. subst. exact E.
Qed.

(** The counterexample to C4: a create with amount -5 is accepted and the
    transaction is stored with its negative amount. *)
Lemma negative_amount_is_stored :
  add_transaction fresh_store 1 jan5 (Post (post_with_amount (-5)%float))
  = (Redirect "transactions" "Transaction added",
     mkDb [food]
          [Transaction.make 1 (-5)%float "expense" (Some "Groceries run")
                            jan5 (Some 1) 1])
  /\ ((-5) <? 0)%float = true.
Proof.
  split; reflexivity.
Qed.

(** A create with the amount [nan] passes validation and fails at commit;
    a create with the amount [inf] is stored. *)
Lemma nan_and_infinite_amounts :
  add_transaction fresh_store 1 jan5 (Post (post_with_amount PrimFloat.nan))
  = (ServerError, fresh_store)
  /\ add_transaction fresh_store 1 jan5
                     (Post (post_with_amount PrimFloat.infinity))
     = (Redirect "transactions" "Transaction added",
        mkDb [food]
             [Transaction.make 1 PrimFloat.infinity "expense"
                               (Some "Groceries run") jan5 (Some 1) 1]).
Proof.
  split; reflexivity.
Qed.

(** C4, amended. Create checks that the amount is present, numeric and not
    zero, and nothing more.  A create whose amount is zero, missing or
    malformed is answered with the form and an error on [amount], and the
    store is unchanged.  A create that changes the store appends exactly one
    transaction, carrying the submitted amount, which is neither zero nor
    NaN.  When the other fields are valid, the amount NaN is answered 500
    with the store unchanged, and every other non-zero amount, the negative
    and the infinite ones included, is accepted and stored. *)
Theorem create_amount_nonzero
  (db : Db) (u : nat) (today : Date.t) (p : TransactionForm.post) :
  ((TransactionForm.amount p = Absent \/ TransactionForm.amount p = Malformed
    \/ exists a, TransactionForm.amount p = Given a
                 /\ (a =? 0)%float = true) ->
   exists errs,
     add_transaction db u today (Post p)
     = (RenderTransactionForm "add_transaction.html" errs None, db)
     /\ In "amount" errs)
  /\ (forall r db',
        add_transaction db u today (Post p) = (r, db') -> db' <> db ->
        exists x,
          db' = mkDb (category_table db) (transaction_table db ++ [x])
          /\ TransactionForm.amount p = Given (Transaction.amount x)
          /\ (Transaction.amount x =? 0)%float = false
          /\ is_nan (Transaction.amount x) = false)
  /\ (forall a ty c,
        TransactionForm.csrf_ok p = true ->
        TransactionForm.amount p = Given a -> (a =? 0)%float = false ->
        TransactionForm.type p = Some ty -> In ty TransactionForm.type_choices ->
        TransactionForm.category p = Given c ->
        In c (category_choices db u) ->
        TransactionForm.date p <> Malformed ->
        if is_nan a
        then add_transaction db u today (Post p) = (ServerError, db)
        else
          exists x,
            add_transaction db u today (Post p)
            = (Redirect "transactions" "Transaction added",
               mkDb (category_table db) (transaction_table db ++ [x]))
            /\ Transaction.amount x = a).
Proof.
  set (init := TransactionForm.mkInitial None None today None).
  split; [|split].
  - intros H.
    assert (Hc : TransactionForm.check_amount init p = None).
    { destruct H as [H | [H | [a [H Ha]]]].
      - unfold TransactionForm.check_amount. rewrite H. reflexivity.
      - unfold TransactionForm.check_amount. rewrite H. reflexivity.
      - rewrite (check_amount_given init p a H), Ha. reflexivity. }
    destruct (validate_amount_failed (category_choices db u) init p Hc)
      as [errs [Hv Hin]].
    exists errs. unfold add_transaction. fold init. rewrite Hv.
    split; [reflexivity | exact Hin].
  - intros r db' Hrun Hne. unfold add_transaction in Hrun. fold init in Hrun.
    destruct (TransactionForm.validate (category_choices db u) init p)
      as [errs | d] eqn:Hv.
    + inversion Hrun. subst. contradiction.
    + cbn [Transaction.amount] in Hrun.
      destruct (is_nan (TransactionForm.amount_data d)) eqn:Hnan.
      * inversion Hrun. subst. contradiction.
      * inversion Hrun. subst. eexists. split; [reflexivity|].
        apply validate_inr_amount in Hv. cbn [Transaction.amount].
        split; [|split; [exact (check_amount_nonzero _ _ _ Hv) | exact Hnan]].
        unfold TransactionForm.check_amount in Hv.
        destruct (TransactionForm.amount p) as [| | a]; simpl in Hv;
          try discriminate.
        destruct (a =? 0)%float; [discriminate|].
        inversion Hv. reflexivity.
  - intros a ty c Hcsrf Ha Hnz Hty Htyin Hc Hcin Hd.
    unfold add_transaction. fold init. unfold TransactionForm.validate.
    rewrite Hcsrf, (check_amount_given init p a Ha), Hnz.
    unfold TransactionForm.check_type. rewrite Hty.
    assert (Hex : existsb (String.eqb ty) TransactionForm.type_choices = true).
    { apply existsb_exists. exists ty. split; [exact Htyin|].
      apply String.eqb_refl. }
    rewrite Hex.
    unfold TransactionForm.check_category. rewrite Hc. simpl process.
    assert (Hex2 : existsb (Nat.eqb c) (category_choices db u) = true).
    { apply existsb_exists. exists c. split; [exact Hcin|].
      apply Nat.eqb_refl. }
    cbv beta iota. rewrite Hex2.
    unfold TransactionForm.check_date.
    destruct (TransactionForm.date p) as [| | d]; [| contradiction |];
      simpl process; cbv beta iota zeta;
      cbn [Transaction.amount TransactionForm.amount_data];
      destruct (is_nan a); try reflexivity;
      eexists; (split; [reflexivity | reflexivity]).
Qed.

End CreateAmount.

(* ================================================================== *)
(** * LIKE patterns and substrings *)
(* ================================================================== *)

Section Like.














End Like.

(* ================================================================== *)
(** * The sample sort meets the ORDER BY contract *)
(* ================================================================== *)

Section Engines.

Lemma date_leb_total (a b : Date.t) :
  Date.leb a b = false -> Date.leb b a = true.
Proof.
  unfold Date.leb, Date.compare.
  destruct (Nat.compare_spec (Date.year a) (Date.year b));
    destruct (Nat.compare_spec (Date.year b) (Date.year a));
    destruct (Nat.compare_spec (Date.month a) (Date.month b));
    destruct (Nat.compare_spec (Date.month b) (Date.month a));
    destruct (Nat.compare_spec (Date.day a) (Date.day b));
    destruct (Nat.compare_spec (Date.day b) (Date.day a));
    intros; try reflexivity; try discriminate; lia.
Qed.

Lemma date_leb_trans (a b c : Date.t) :
  Date.leb a b = true -> Date.leb b c = true -> Date.leb a c = true.
Proof.
  unfold Date.leb, Date.compare.
  destruct (Nat.compare_spec (Date.year a) (Date.year b));
    destruct (Nat.compare_spec (Date.year b) (Date.year c));
    destruct (Nat.compare_spec (Date.year a) (Date.year c));
    try (intros; reflexivity); try (intros; discriminate); try lia;
    destruct (Nat.compare_spec (Date.month a) (Date.month b));
    destruct (Nat.compare_spec (Date.month b) (Date.month c));
    destruct (Nat.compare_spec (Date.month a) (Date.month c));
    try (intros; reflexivity); try (intros; discriminate); try lia;
    destruct (Nat.compare_spec (Date.day a) (Date.day b));
    destruct (Nat.compare_spec (Date.day b) (Date.day c));
    destruct (Nat.compare_spec (Date.day a) (Date.day c));
    try (intros; reflexivity); try (intros; discriminate); lia.
Qed.

Lemma insert_by_date_perm (x : Transaction.t) (l : list Transaction.t) :
  Permutation (x :: l) (insert_by_date x l).
Proof.
  induction l as [|h r IH]; simpl; [reflexivity|].
  destruct (Date.leb (Transaction.date h) (Transaction.date x));
    [reflexivity|].
  rewrite perm_swap. constructor. exact IH.
Qed.

Lemma insert_by_date_sorted (x : Transaction.t) (l : list Transaction.t) :
  date_desc l -> date_desc (insert_by_date x l).
Proof.
  unfold date_desc.
  induction 1 as [|h r Hs IH Hall]; simpl.
  - constructor; constructor.
  - destruct (Date.leb (Transaction.date h) (Transaction.date x)) eqn:E.
    + constructor; [constructor; assumption|].
      constructor; [exact E|].
      rewrite Forall_forall in *. intros y Hy.
      exact (date_leb_trans _ _ _ (Hall y Hy) E).
    + constructor; [exact IH|].
      rewrite Forall_forall in *. intros y Hy.
      apply (Permutation_in _ (Permutation_sym (insert_by_date_perm x r)))
        in Hy.
      destruct Hy as [<- | Hy].
      * apply date_leb_total. exact E.
      * exact (Hall y Hy).
Qed.

Lemma stable_order_contract : order_by_contract stable_order.
Proof.
  intros rows. unfold stable_order.
  induction rows as [|x l [IHp IHs]]; simpl.
  - split; [reflexivity | constructor].
  - split.
    + rewrite <- insert_by_date_perm. constructor. exact IHp.
    + apply insert_by_date_sorted. exact IHs.
Qed.

End Engines.

(* ================================================================== *)
(** * The search filter of the listing *)
(* ================================================================== *)

Section Search.










End Search.

(* ================================================================== *)
(** * Pagination of the listing *)
(* ================================================================== *)

Section Paging.

Lemma firstn_nil_iff (A : Type) (n : nat) (l : list A) :
  firstn (S n) l = [] -> l = [].
Proof.
  destruct l; [reflexivity | discriminate].
Qed.

Lemma paginate_inside (l : list Transaction.t) (p : Z) (n : nat) :
  (1 <= p)%Z -> (Z.to_nat p - 1) * S n < List.length l ->
  paginate l p (S n)
  = Some (mkPagination (firstn (S n) (skipn ((Z.to_nat p - 1) * S n) l))
                       p (S n) (List.length l)).
Proof.
  intros Hp Hlen. unfold paginate.
  destruct (Z.ltb_spec p 1) as [Hlt | _]; [lia|].
  destruct (firstn (S n) (skipn ((Z.to_nat p - 1) * S n) l)) as [|a r] eqn:E;
    [|reflexivity].
  exfalso. apply firstn_nil_iff in E.
  assert (Hl : List.length (skipn ((Z.to_nat p - 1) * S n) l) = 0)
    by (rewrite E; reflexivity).
  rewrite length_skipn in Hl. lia.
Qed.

Lemma paginate_beyond (l : list Transaction.t) (p : Z) (n : nat) :
  (1 < p)%Z -> List.length l <= (Z.to_nat p - 1) * n ->
  paginate l p n = None.
Proof.
  intros Hp Hlen. unfold paginate.
  destruct (Z.ltb_spec p 1) as [_ | _]; [reflexivity|].
  rewrite (skipn_all2 l Hlen), firstn_nil.
  destruct (Z.eqb_spec p 1) as [H1 | _]; [lia | reflexivity].
Qed.

Lemma paginate_first (l : list Transaction.t) (n : nat) :
  paginate l 1 n = Some (mkPagination (firstn n l) 1 n (List.length l)).
Proof.
  unfold paginate. change ((Z.to_nat 1 - 1) * n) with 0.
  cbn [Z.ltb Z.compare Z.eqb Pos.compare Pos.eqb skipn].
  destruct (firstn n l); reflexivity.
Qed.






End Paging.

Section PageBounds.





(** The first page whose offset the driver cannot bind, on the sample
    ledger; the page before it is answered 404. *)
Lemma page_bounds_example :
  serve_transactions stable_order small_ledger 1
                     (mkArgs (Some 461168601842738792%Z) None)
  = ServerError
  /\ serve_transactions stable_order small_ledger 1
                        (mkArgs (Some 461168601842738791%Z) None)
     = NotFound.
Proof.
  split.
  - reflexivity.
  - unfold serve_transactions, transactions. cbn [arg_page].
    rewrite (paginate_beyond _ _ 20); [reflexivity | lia |].
    change (List.length (listing_query stable_order small_ledger 1
              (mkArgs (Some 461168601842738791%Z) None))) with 2.
    lia.
Qed.

End PageBounds.

(* ================================================================== *)
(** * CSV export *)
(* ================================================================== *)

Section CsvExport.

Lemma writerow_header (repr : float -> string) :
  Csv.writerow repr header
  = ("Date,Type,Amount,Category,Description" ++ crlf)%string.
Proof.
  reflexivity.
Qed.

(** The counterexample to C8: with the filter [grocer] the listing selects
    one of the two transactions of the sample ledger, while the export, which
    reads no query parameter, writes both, and answers the same with and
    without the filter. *)
Lemma export_ignores_filter :
  listing_query stable_order small_ledger 1 (mkArgs None (Some "grocer"))
  = [groceries]
  /\ export_csv_rows stable_order small_ledger 1
     = [header; csv_row small_ledger groceries; csv_row small_ledger rent]
  /\ export_csv stable_order repr_whole small_ledger 1
                (mkArgs None (Some "grocer"))
     = export_csv stable_order repr_whole small_ledger 1 (mkArgs None None)
  /\ export_csv stable_order repr_whole small_ledger 1
                (mkArgs None (Some "grocer"))
     = SendFile "text/csv" "transactions.csv"
         ("Date,Type,Amount,Category,Description" ++ crlf
          ++ "2024-01-05,expense,25.0,Food,Groceries run" ++ crlf
          ++ "2024-01-05,expense,900.0,,Rent" ++ crlf)%string.
Proof.
  repeat split; reflexivity.
Qed.

(** C8, amended. The CSV export ignores pagination and the search filter
    alike: whatever the query parameters, it writes the header row
    [Date,Type,Amount,Category,Description] followed by one row for each of
    the caller's transactions, all of them, in the order the date-descending
    query returned them.  A row holds the ISO date, the type, the amount,
    the category name -- empty when the transaction has no category -- and
    the description -- empty when absent. *)
Theorem export_csv_all
  (order_by : list Transaction.t -> list Transaction.t)
  (repr : float -> string) (db : Db) (u : nat) (args : Args) :
  order_by_contract order_by ->
  export_csv order_by repr db u args
  = SendFile "text/csv" "transactions.csv"
      (("Date,Type,Amount,Category,Description" ++ crlf)
       ++ Csv.write repr
            (map (csv_row db) (order_by (transactions_of db u))))%string
  /\ export_csv order_by repr db u args
     = export_csv order_by repr db u (mkArgs None None)
  /\ List.length (map (csv_row db) (order_by (transactions_of db u)))
     = List.length (transactions_of db u)
  /\ (forall x, In x (transactions_of db u) ->
                In (csv_row db x)
                   (map (csv_row db) (order_by (transactions_of db u))))
  /\ (forall x, exists c d,
        csv_row db x
        = [Csv.Str (Date.isoformat (Transaction.date x));
           Csv.Str (Transaction.type x);
           Csv.Float (Transaction.amount x);
           Csv.Str c; Csv.Str d]
        /\ (category_of db x = None -> c = EmptyString)
        /\ (forall k, category_of db x = Some k -> c = Category.name k)
        /\ (Transaction.description x = None -> d = EmptyString)
        /\ (forall t, Transaction.description x = Some t -> d = t)).
Proof.
  intros Hc.
  destruct (Hc (transactions_of db u)) as [Hperm _].
  split; [|split; [|split; [|split]]].
  - unfold export_csv, export_csv_rows.
    cbn [Csv.write fold_right]. rewrite writerow_header. reflexivity.
  - reflexivity.
  - rewrite length_map. symmetry. apply Permutation_length. exact Hperm.
  - intros x Hin. apply in_map. apply (Permutation_in _ Hperm). exact Hin.
  - intros x. unfold csv_row. do 2 eexists. split; [reflexivity|].
    split; [|split; [|split]].
    + intros ->. reflexivity.
    + intros k ->. reflexivity.
    + intros ->. reflexivity.
    + intros t ->. destruct t; reflexivity.
Qed.

(** The sample ledger exported by the stable sort. *)
Lemma export_csv_all_witness :
  export_csv stable_order repr_whole small_ledger 1 (mkArgs (Some 3%Z) None)
  = SendFile "text/csv" "transactions.csv"
      (("Date,Type,Amount,Category,Description" ++ crlf)
       ++ Csv.write repr_whole
            (map (csv_row small_ledger)
                 (stable_order (transactions_of small_ledger 1))))%string.
Proof.
  apply (export_csv_all stable_order repr_whole small_ledger 1
                        (mkArgs (Some 3%Z) None)).
  exact stable_order_contract.
Defined.

End CsvExport.

(* ================================================================== *)
(** * Deleting a category that is in use *)
(* ================================================================== *)

Section DeleteCategory.

Lemma get_category_some (db : Db) (u i : nat) (c : Category.t) :
  get_category db u i = Some c ->
  In c (category_table db) /\ Category.id c = i /\ Category.user_id c = u.
Proof.
  unfold get_category. intros H. apply find_some in H.
  destruct H as [Hin Hb]. apply andb_true_iff in Hb.
  destruct Hb as [Hi Hu]. apply Nat.eqb_eq in Hi, Hu. auto.
Qed.

Lemma get_transaction_some (db : Db) (u i : nat) (x : Transaction.t) :
  get_transaction db u i = Some x ->
  In x (transaction_table db)
  /\ Transaction.id x = i /\ Transaction.user_id x = u.
Proof.
  unfold get_transaction. intros H. apply find_some in H.
  destruct H as [Hin Hb]. apply andb_true_iff in Hb.
  destruct Hb as [Hi Hu]. apply Nat.eqb_eq in Hi, Hu. auto.
Qed.

(** C9. When user [u] deletes one of their categories, the request succeeds
    whether or not transactions refer to the category; afterwards the
    category is gone, the ledger holds the same transactions in the same
    order, each transaction that referred to the category has lost its
    reference and reads as having no category, and every other transaction
    is unchanged. *)
Theorem delete_category_in_use
  (db : Db) (u cat_id : nat) (c : Category.t) :
  get_category db u cat_id = Some c ->
  exists db',
    delete_category db u cat_id
    = (Redirect "add_transaction" "Category deleted.", db')
    /\ (forall k, In k (category_table db') -> Category.id k <> cat_id)
    /\ map Transaction.id (transaction_table db')
       = map Transaction.id (transaction_table db)
    /\ (forall x,
          In x (transaction_table db) ->
          Transaction.category_id x = Some cat_id ->
          In (Transaction.set_category_id None x) (transaction_table db')
          /\ category_of db' (Transaction.set_category_id None x) = None)
    /\ (forall x,
          In x (transaction_table db) ->
          Transaction.category_id x <> Some cat_id ->
          In x (transaction_table db'))
    /\ (forall y,
          In y (transaction_table db') ->
          forall k, category_of db' y = Some k -> Category.id k <> cat_id).
Proof.
  intros Hget. destruct (get_category_some db u cat_id c Hget) as [_ [Hid _]].
  unfold delete_category. rewrite Hget, Hid.
  eexists. split; [reflexivity|]. cbn [category_table transaction_table].
  split; [|split; [|split; [|split]]].
  - intros k Hk. apply filter_In in Hk. destruct Hk as [_ Hk].
    apply negb_true_iff, Nat.eqb_neq in Hk. exact Hk.
  - rewrite map_map. apply map_ext. intros y.
    destruct (Transaction.category_id y) as [k|]; [|reflexivity].
    destruct (k =? cat_id); reflexivity.
  - intros x Hin Hx. split; [|reflexivity].
    apply in_map_iff. exists x. split; [|exact Hin].
    rewrite Hx, Nat.eqb_refl. reflexivity.
  - intros x Hin Hx. apply in_map_iff. exists x. split; [|exact Hin].
    destruct (Transaction.category_id x) as [k|]; [|reflexivity].
    destruct (Nat.eqb_spec k cat_id) as [-> | _]; [congruence | reflexivity].
  - intros y _ k Hk. unfold category_of in Hk.
    destruct (Transaction.category_id y) as [j|]; [|discriminate].
    apply find_some in Hk. destruct Hk as [Hk _].
    cbn [category_table] in Hk. apply filter_In in Hk.
    destruct Hk as [_ Hk]. apply negb_true_iff, Nat.eqb_neq in Hk. exact Hk.
Qed.

(** Deleting the category of the sample ledger, which one of its
    transactions refers to. *)
Lemma delete_category_in_use_witness :
  exists db',
    delete_category small_ledger 1 1
    = (Redirect "add_transaction" "Category deleted.", db')
    /\ (forall k, In k (category_table db') -> Category.id k <> 1)
    /\ map Transaction.id (transaction_table db')
       = map Transaction.id (transaction_table small_ledger)
    /\ (forall x,
          In x (transaction_table small_ledger) ->
          Transaction.category_id x = Some 1 ->
          In (Transaction.set_category_id None x) (transaction_table db')
          /\ category_of db' (Transaction.set_category_id None x) = None)
    /\ (forall x,
          In x (transaction_table small_ledger) ->
          Transaction.category_id x <> Some 1 ->
          In x (transaction_table db'))
    /\ (forall y,
          In y (transaction_table db') ->
          forall k, category_of db' y = Some k -> Category.id k <> 1).
Proof.
  apply (delete_category_in_use small_ledger 1 1 food). reflexivity.
Defined.

End DeleteCategory.

(* ================================================================== *)
(** * Category references stay within a user *)
(* ================================================================== *)

Section References.

Lemma next_id_above (ids : list nat) (i : nat) :
  In i ids -> i < next_id ids.
Proof.
  unfold next_id. induction ids as [|a r IH]; simpl; [contradiction|].
  intros [-> | H]; [lia|]. specialize (IH H). lia.
Qed.

Lemma next_id_fresh (ids : list nat) : ~ In (next_id ids) ids.
Proof.
  intros H. apply next_id_above in H. lia.
Qed.

Lemma NoDup_snoc (ids : list nat) (i : nat) :
  NoDup ids -> ~ In i ids -> NoDup (ids ++ [i]).
Proof.
  intros Hnd Hni. apply NoDup_app; [exact Hnd | repeat constructor; auto |].
  intros a Ha [<- | []]. exact (Hni Ha).
Qed.

Lemma NoDup_map_filter (A : Type) (f : A -> nat) (g : A -> bool)
  (l : list A) :
  NoDup (map f l) -> NoDup (map f (filter g l)).
Proof.
  induction l as [|a l IH]; simpl; intros H; [constructor|].
  inversion H as [|? ? Hni Hnd]. subst.
  destruct (g a); simpl; [|exact (IH Hnd)].
  constructor; [|exact (IH Hnd)].
  intros Hin. apply Hni. apply in_map_iff in Hin.
  destruct Hin as [b [Hb Hin]]. apply filter_In in Hin.
  rewrite <- Hb. apply in_map. tauto.
Qed.

Lemma same_key_same_row (l : list Transaction.t) (a b : Transaction.t) :
  NoDup (map Transaction.id l) -> In a l -> In b l ->
  Transaction.id a = Transaction.id b -> a = b.
Proof.
  induction l as [|h r IH]; simpl; intros Hnd Ha Hb E; [contradiction|].
  inversion Hnd as [|? ? Hni Hnd']. subst.
  destruct Ha as [<- | Ha]; destruct Hb as [<- | Hb].
  - reflexivity.
  - exfalso. apply Hni. rewrite E. apply in_map. exact Hb.
  - exfalso. apply Hni. rewrite <- E. apply in_map. exact Ha.
  - exact (IH Hnd' Ha Hb E).
Qed.

Lemma validate_inr_category (choices : list nat)
  (init : TransactionForm.initial) (p : TransactionForm.post)
  (d : TransactionForm.data) :
  TransactionForm.validate choices init p = inr d ->
  In (TransactionForm.category_data d) choices.
Proof.
  unfold TransactionForm.validate.
  destruct (TransactionForm.csrf_ok p);
    destruct (TransactionForm.check_amount init p);
    destruct (TransactionForm.check_type init p);
    destruct (TransactionForm.check_category choices p) as [k|] eqn:E;
    destruct (TransactionForm.check_date init p);
    intros H; inversion H. subst. cbn [TransactionForm.category_data].
  unfold TransactionForm.check_category in E.
  destruct (TransactionForm.category p) as [| | c]; simpl in E;
    try discriminate.
  destruct (existsb (Nat.eqb c) choices) eqn:Ex; [|discriminate].
  inversion E. subst. apply existsb_exists in Ex.
  destruct Ex as [c' [Hin Hc]]. apply Nat.eqb_eq in Hc. subst. exact Hin.
Qed.

Lemma validate_category_failed (choices : list nat)
  (init : TransactionForm.initial) (p : TransactionForm.post) :
  TransactionForm.check_category choices p = None ->
  exists errs,
    TransactionForm.validate choices init p = inl errs /\ In "category" errs.
Proof.
  intros H. unfold TransactionForm.validate. rewrite H.
  destruct (TransactionForm.csrf_ok p);
    destruct (TransactionForm.check_amount init p);
    destruct (TransactionForm.check_type init p);
    (eexists; split; [reflexivity|]);
    rewrite !in_app_iff; right; right; left; left; reflexivity.
Qed.

Lemma choice_is_own_category (db : Db) (u k : nat) :
  In k (category_choices db u) ->
  exists c, In c (category_table db)
            /\ Category.id c = k /\ Category.user_id c = u.
Proof.
  unfold category_choices, categories_of. intros H.
  apply in_map_iff in H. destruct H as [c [Hk Hin]].
  apply filter_In in Hin. destruct Hin as [Hin Hu].
  apply Nat.eqb_eq in Hu. exists c. auto.
Qed.

Lemma foreign_category_no_choice (db : Db) (u : nat) (c : Category.t) :
  NoDup (map Category.id (category_table db)) ->
  In c (category_table db) -> Category.user_id c <> u ->
  ~ In (Category.id c) (category_choices db u).
Proof.
  intros Hnd Hin Hu Hch.
  destruct (choice_is_own_category db u _ Hch) as [c' [Hin' [Hid Hu']]].
  assert (c' = c).
  { clear Hch Hu Hu'. revert Hnd Hin Hin' Hid.
    induction (category_table db) as [|h r IH]; simpl; [contradiction|].
    intros Hnd Hin Hin' Hid.
    inversion Hnd as [|? ? Hni Hnd']. subst.
    destruct Hin as [<- | Hin]; destruct Hin' as [<- | Hin'].
    - reflexivity.
    - exfalso. apply Hni. rewrite <- Hid. apply in_map. exact Hin'.
    - exfalso. apply Hni. rewrite Hid. apply in_map. exact Hin.
    - exact (IH Hnd' Hin Hin' Hid). }
  subst. contradiction.
Qed.

Lemma category_or_none_some (c k : nat) :
  category_or_none c = Some k -> k = c.
Proof.
  destruct c; simpl; congruence.
Qed.

End References.

Section Invariant.

Lemma add_transaction_consistent (db : Db) (u : nat) (today : Date.t)
  (req : Request TransactionForm.post) :
  consistent db -> consistent (snd (add_transaction db u today req)).
Proof.
  intros [Hk [Ht Ho]]. unfold add_transaction.
  destruct req as [|p]; [repeat split; assumption|].
  destruct (TransactionForm.validate _ _ p) as [errs | d] eqn:Hv;
    [repeat split; assumption|].
  cbn [Transaction.amount].
  destruct (is_nan (TransactionForm.amount_data d));
    [repeat split; assumption|].
  cbn [snd]. split; [exact Hk|]. split.
  - cbn [transaction_table]. rewrite map_app. cbn [map Transaction.id].
    apply NoDup_snoc; [exact Ht | apply next_id_fresh].
  - intros x k Hin Hx. cbn [transaction_table category_table] in *.
    apply in_app_or in Hin. destruct Hin as [Hin | [<- | []]].
    + exact (Ho x k Hin Hx).
    + cbn [Transaction.category_id Transaction.user_id] in *.
      apply category_or_none_some in Hx. subst k.
      apply choice_is_own_category.
      exact (validate_inr_category _ _ _ _ Hv).
Qed.

Lemma edit_transaction_consistent (db : Db) (u i : nat)
  (req : Request TransactionForm.post) :
  consistent db -> consistent (snd (edit_transaction db u i req)).
Proof.
  intros [Hk [Ht Ho]]. unfold edit_transaction.
  destruct (get_transaction db u i) as [x|] eqn:Hget;
    [|repeat split; assumption].
  destruct (get_transaction_some db u i x Hget) as [Hinx [_ Hux]].
  destruct req as [|p]; [repeat split; assumption|].
  destruct (TransactionForm.validate _ _ p) as [errs | d] eqn:Hv;
    [repeat split; assumption|].
  destruct (is_nan (TransactionForm.amount_data d));
    [repeat split; assumption|].
  cbn [snd]. split; [exact Hk|]. split.
  - cbn [transaction_table]. rewrite map_map.
    erewrite map_ext; [exact Ht|].
    intros y. destruct (Transaction.id y =? Transaction.id x); reflexivity.
  - intros y' k Hin Hy. cbn [transaction_table category_table] in *.
    apply in_map_iff in Hin. destruct Hin as [y [<- Hin]].
    destruct (Nat.eqb_spec (Transaction.id y) (Transaction.id x)) as [E | _].
    + assert (y = x) by exact (same_key_same_row _ y x Ht Hin Hinx E).
      subst y. cbn [update_transaction Transaction.category_id
                    Transaction.user_id] in *.
      apply category_or_none_some in Hy. subst k. rewrite Hux.
      apply choice_is_own_category.
      exact (validate_inr_category _ _ _ _ Hv).
    + exact (Ho y k Hin Hy).
Qed.

Lemma delete_transaction_consistent (db : Db) (u i : nat) :
  consistent db -> consistent (snd (delete_transaction db u i)).
Proof.
  intros [Hk [Ht Ho]]. unfold delete_transaction.
  destruct (get_transaction db u i) as [x|]; [|repeat split; assumption].
  cbn [snd]. split; [exact Hk|]. split.
  - cbn [transaction_table]. apply NoDup_map_filter. exact Ht.
  - intros y k Hin Hy. cbn [transaction_table category_table] in *.
    apply filter_In in Hin. exact (Ho y k (proj1 Hin) Hy).
Qed.

Lemma add_category_consistent (db : Db) (u : nat)
  (req : Request CategoryForm.post) :
  consistent db -> consistent (snd (add_category db u req)).
Proof.
  intros [Hk [Ht Ho]]. unfold add_category.
  destruct req as [|p]; [repeat split; assumption|].
  destruct (CategoryForm.validate None p) as [errs | nm];
    [repeat split; assumption|].
  cbn [snd]. split; [|split; [exact Ht|]].
  - cbn [category_table]. rewrite map_app. cbn [map Category.id].
    apply NoDup_snoc; [exact Hk | apply next_id_fresh].
  - intros x k Hin Hx. cbn [transaction_table category_table] in *.
    destruct (Ho x k Hin Hx) as [c [Hc H]].
    exists c. split; [apply in_or_app; left; exact Hc | exact H].
Qed.

Lemma edit_category_consistent (db : Db) (u i : nat)
  (req : Request CategoryForm.post) :
  consistent db -> consistent (snd (edit_category db u i req)).
Proof.
  intros [Hk [Ht Ho]]. unfold edit_category.
  destruct (get_category db u i) as [c|]; [|repeat split; assumption].
  destruct req as [|p]; [repeat split; assumption|].
  destruct (CategoryForm.validate _ p) as [errs | nm];
    [repeat split; assumption|].
  cbn [snd]. split; [|split; [exact Ht|]].
  - cbn [category_table]. rewrite map_map.
    erewrite map_ext; [exact Hk|].
    intros k. destruct (Category.id k =? Category.id c); reflexivity.
  - intros x k Hin Hx. cbn [transaction_table category_table] in *.
    destruct (Ho x k Hin Hx) as [c' [Hc [Hid Hu]]].
    eexists. split; [apply in_map; exact Hc|].
    destruct (Category.id c' =? Category.id c); split; assumption.
Qed.

Lemma delete_category_consistent (db : Db) (u i : nat) :
  consistent db -> consistent (snd (delete_category db u i)).
Proof.
  intros [Hk [Ht Ho]]. unfold delete_category.
  destruct (get_category db u i) as [c|]; [|repeat split; assumption].
  cbn [snd]. split; [|split].
  - cbn [category_table]. apply NoDup_map_filter. exact Hk.
  - cbn [transaction_table]. rewrite map_map.
    erewrite map_ext; [exact Ht|].
    intros y. destruct (Transaction.category_id y) as [k|]; [|reflexivity].
    destruct (k =? Category.id c); reflexivity.
  - intros y' k Hin Hy. cbn [transaction_table category_table] in *.
    apply in_map_iff in Hin. destruct Hin as [y [<- Hin]].
    destruct (Transaction.category_id y) as [j|] eqn:Ej.
    + destruct (Nat.eqb_spec j (Category.id c)) as [E | Hne].
      * discriminate.
      * rewrite Ej in Hy. inversion Hy. subst j.
        destruct (Ho y k Hin Ej) as [c' [Hc [Hid Hu]]].
        exists c'. split; [|split; assumption].
        apply filter_In. split; [exact Hc|].
        apply negb_true_iff, Nat.eqb_neq. congruence.
    + congruence.
Qed.

(** C10. For unique primary keys, "every category reference of a transaction
    points at a category of the transaction's owner" is kept by every
    operation on the ledger and on the categories.  The transaction form
    accepts only the caller's own category keys: a create or an update that
    submits the key of another user's category changes nothing, and is
    answered with the form and an error on its category field (or, for an
    update of a transaction the caller does not own, with 404). *)
Theorem category_references_owned (db : Db) (u : nat) (op : Operation) :
  consistent db ->
  consistent (snd (run db u op))
  /\ (forall p c,
        In c (category_table db) -> Category.user_id c <> u ->
        TransactionForm.category p = Given (Category.id c) ->
        (forall today,
            category_refused (fst (add_transaction db u today (Post p)))
            /\ snd (add_transaction db u today (Post p)) = db)
        /\ (forall i,
              (fst (edit_transaction db u i (Post p)) = NotFound
               \/ category_refused (fst (edit_transaction db u i (Post p))))
              /\ snd (edit_transaction db u i (Post p)) = db)).
Proof.
  intros Hcons. split.
  - assert (Hroute : consistent (snd (route db u op))).
    { destruct op; cbn [route].
      + apply add_transaction_consistent; exact Hcons.
      + apply edit_transaction_consistent; exact Hcons.
      + apply delete_transaction_consistent; exact Hcons.
      + apply add_category_consistent; exact Hcons.
      + apply edit_category_consistent; exact Hcons.
      + apply delete_category_consistent; exact Hcons. }
    unfold run. destruct (url_key op) as [i|]; [|exact Hroute].
    destruct (bindable (Z.of_nat i)); [exact Hroute | exact Hcons].
  - intros p c Hin Hu Hp.
    assert (Hno : TransactionForm.check_category (category_choices db u) p
                  = None).
    { unfold TransactionForm.check_category. rewrite Hp. cbn [process].
      destruct (existsb (Nat.eqb (Category.id c)) (category_choices db u))
        eqn:Ex; [|reflexivity].
      exfalso. apply existsb_exists in Ex. destruct Ex as [k [Hk Hkc]].
      apply Nat.eqb_eq in Hkc. subst k.
      exact (foreign_category_no_choice db u c (proj1 Hcons) Hin Hu Hk). }
    split.
    + intros today. unfold add_transaction.
      destruct (validate_category_failed _
                  (TransactionForm.mkInitial None None today None) p Hno)
        as [errs [Hv Herr]].
      rewrite Hv. cbn [fst snd]. split; [|reflexivity].
      exists "add_transaction.html", errs, None. split; auto.
    + intros i. unfold edit_transaction.
      destruct (get_transaction db u i) as [x|]; [|split; auto].
      destruct (validate_category_failed _
                  (TransactionForm.mkInitial
                     (Some (Transaction.amount x)) (Some (Transaction.type x))
                     (Transaction.date x) (Transaction.description x))
                  p Hno)
        as [errs [Hv Herr]].
      rewrite Hv. cbn [fst snd]. split; [|reflexivity].
      right. exists "edit_transaction.html", errs, (Some x). split; auto.
Qed.

End Invariant.

(* ================================================================== *)
(** * Instances on the sample stores *)
(* ================================================================== *)

Section Samples.

(** Key 7 is free in one store; in the other, transaction 7 belongs to
    user 2 while user 1 owns category 7.  User 1 deletes transaction 7. *)
Lemma ownership_isolation_witness :
  snd (run fresh_store 1 (DeleteTransaction 7)) = fresh_store
  /\ snd (run shared_key_store 1 (DeleteTransaction 7)) = shared_key_store
  /\ fst (run fresh_store 1 (DeleteTransaction 7))
     = fst (run shared_key_store 1 (DeleteTransaction 7))
  /\ ((Z.of_nat 7 <= sqlite_max)%Z ->
      fst (run fresh_store 1 (DeleteTransaction 7)) = NotFound)
  /\ ((sqlite_max < Z.of_nat 7)%Z ->
      fst (run fresh_store 1 (DeleteTransaction 7)) = ServerError).
Proof.
  apply (ownership_isolation fresh_store shared_key_store 1 7 Get Get
                             (DeleteTransaction 7)).
  left. split; [simpl; tauto|]. split.
  - intros x [].
  - intros x [<- | []] _. discriminate.
Defined.

(** User 1 owns category 7 of the second store, and edits it. *)
Lemma own_category_is_served :
  owns_no_transaction shared_key_store 1 7
  /\ ~ owns_no_category shared_key_store 1 7
  /\ run shared_key_store 1 (DeleteTransaction 7)
     = (NotFound, shared_key_store)
  /\ run shared_key_store 1 (EditCategory 7 Get)
     = (RenderCategoryForm "edit_category.html" [] None, shared_key_store).
Proof.
  split; [intros x [<- | []] _; discriminate|].
  split; [|split; reflexivity].
  intros H. apply (H (Category.make 7 "Travel" 1)); [left|..]; reflexivity.
Qed.

Lemma small_ledger_consistent : consistent small_ledger.
Proof.
  split; [|split].
  - simpl. constructor; [intros [] | constructor].
  - simpl. constructor; [intros [H | []]; discriminate|].
    constructor; [intros [] | constructor].
  - intros x k [<- | [<- | []]] H; simpl in H; [|discriminate].
    inversion H. subst. exists food. simpl. auto.
Qed.

(** The sample ledger after its category is deleted. *)
Lemma category_references_owned_witness :
  consistent (snd (run small_ledger 1 (DeleteCategory 1))).
Proof.
  refine (proj1 (category_references_owned small_ledger 1
                                           (DeleteCategory 1) _)).
  exact small_ledger_consistent.
Defined.

(** The monthly-series example: February is not listed. *)
Lemma monthly_series_example :
  api_summary sequential_sum quarter_ledger 1
  = Json [mkSummaryEntry "2024-01" 100%float 30%float;
          mkSummaryEntry "2024-03" 50%float 0%float].
Proof.
  vm_compute. reflexivity.
Qed.


(** The filter example: [grocer] finds "Groceries run", [zzz-no-match]
    gives an empty first page with total 0. *)
Lemma filter_example :
  transactions stable_order small_ledger 1 (mkArgs None (Some "grocer"))
  = RenderListing (mkPagination [groceries] 1 20 1)
  /\ transactions stable_order small_ledger 1
                  (mkArgs None (Some "zzz-no-match"))
     = RenderListing (mkPagination [] 1 20 0).
Proof.
  split; reflexivity.
Qed.

Lemma isoformat_example : Date.isoformat jan5 = "2024-01-05".
Proof.
  reflexivity.
Qed.

(** The two renderings of a date differ on years below 1000. *)
Lemma strftime_Ymd_example :
  Date.strftime_Ymd jan5 = "2024-01-05"
  /\ Date.strftime_Ymd (Date.make 5 1 1) = "5-01-01"
  /\ Date.isoformat (Date.make 5 1 1) = "0005-01-01".
Proof.
  repeat split; reflexivity.
Qed.

(** The dashboard of the sample ledger: no income, the expenses 25 and 900,
    which add up without rounding. *)
Lemma dashboard_example :
  dashboard stable_order sequential_sum small_ledger 1
  = RenderDashboard [groceries; rent] 0%float 925%float (-925)%float
  /\ is_sum_of 925%float [25%float; 900%float].
Proof.
  split; [vm_compute; reflexivity|].
  unfold is_sum_of. do 2 eexists.
  split; [vm_compute; reflexivity|].
  split; [vm_compute; reflexivity|].
  vm_compute. reflexivity.
Qed.

End Samples.

(* ================================================================== *)
(** * Layout of the PDF export *)
(* ================================================================== *)

Section PdfLayout.

Variable format_2f : float -> string.

Lemma pdf_fold (db : Db) (txs : list Transaction.t) (y : Z)
  (ops : list Pdf.op) :
  snd (fold_left (pdf_step format_2f db) txs (y, ops))
  = ops ++ pdf_lines (pdf_cells format_2f db) y txs.
Proof.
  revert y ops. induction txs as [|x r IH]; intros y ops.
  - simpl. rewrite app_nil_r. reflexivity.
  - cbn [fold_left pdf_lines]. unfold pdf_step at 2.
    destruct (y <? 50)%Z.
    + rewrite IH. rewrite <- !app_assoc. reflexivity.
    + rewrite IH. rewrite <- !app_assoc. reflexivity.
Qed.

Lemma draw_line_y (y : Z) (cells : list string) (x : nat) (y' : Z)
  (s : string) :
  In (Pdf.DrawString x y' s) (draw_line y cells) ->
  y' = y /\ In x x_positions.
Proof.
  unfold draw_line. intros H. apply in_map_iff in H.
  destruct H as [[x0 s0] [E Hin]]. inversion E. subst.
  split; [reflexivity|]. exact (in_combine_l _ _ _ _ Hin).
Qed.

Lemma pdf_lines_margins (cells : Transaction.t -> list string)
  (txs : list Transaction.t) (y0 : Z) (x : nat) (y : Z) (s : string) :
  (y0 <= 800)%Z ->
  In (Pdf.DrawString x y s) (pdf_lines cells y0 txs) ->
  (50 <= y <= 800)%Z /\ In x x_positions.
Proof.
  revert y0. induction txs as [|t r IH]; intros y0 Hy0 Hin; [contradiction|].
  cbn [pdf_lines] in Hin. destruct (Z.ltb_spec y0 50) as [Hlt | Hge].
  - destruct Hin as [Hin | Hin]; [discriminate|].
    apply in_app_or in Hin. destruct Hin as [Hin | Hin].
    + apply draw_line_y in Hin. destruct Hin as [-> Hx]. split; [lia|exact Hx].
    + apply (IH (800 - 15)%Z); [lia | exact Hin].
  - apply in_app_or in Hin. destruct Hin as [Hin | Hin].
    + apply draw_line_y in Hin. destruct Hin as [-> Hx]. split; [lia|exact Hx].
    + apply (IH (y0 - 15)%Z); [lia | exact Hin].
Qed.

Lemma page_breaks_app (a b : list Pdf.op) :
  page_breaks (a ++ b) = page_breaks a + page_breaks b.
Proof.
  unfold page_breaks. rewrite filter_app, length_app. reflexivity.
Qed.

Lemma page_breaks_draw_line (y : Z) (cells : list string) :
  page_breaks (draw_line y cells) = 0.
Proof.
  unfold page_breaks, draw_line.
  induction (combine x_positions cells) as [|a l IH]; simpl; auto.
Qed.

(** Page breaks made by [n] lines when the next line is due at [y]. *)
Lemma pdf_lines_breaks (cells : Transaction.t -> list string)
  (txs : list Transaction.t) (y : Z) :
  (y <= 800)%Z ->
  Z.of_nat (page_breaks (pdf_lines cells y txs))
  = (if (y <? 50)%Z
     then (Z.of_nat (List.length txs) + 50) / 51
     else if (Z.of_nat (List.length txs) <=? (y - 50) / 15 + 1)%Z
          then 0
          else (Z.of_nat (List.length txs) - ((y - 50) / 15 + 1) + 50) / 51)%Z.
Proof.
  revert y. induction txs as [|t r IH]; intros y Hy.
  - cbn [pdf_lines List.length]. change (page_breaks []) with 0.
    destruct (Z.ltb_spec y 50); [reflexivity|].
    destruct (Z.leb_spec (Z.of_nat 0) ((y - 50) / 15 + 1)); [reflexivity|].
    exfalso. assert (0 <= (y - 50) / 15)%Z by (apply Z.div_pos; lia). lia.
  - cbn [pdf_lines]. rewrite length_cons, Nat2Z.inj_succ.
    set (n := Z.of_nat (List.length r)) in *.
    assert (Hn : (0 <= n)%Z) by (unfold n; lia).
    destruct (Z.ltb_spec y 50) as [Hlt | Hge].
    + change (Pdf.ShowPage :: draw_line 800 (cells t)
                ++ pdf_lines cells (800 - 15) r)
        with ([Pdf.ShowPage] ++ draw_line 800 (cells t)
                ++ pdf_lines cells (800 - 15) r).
      rewrite !page_breaks_app, page_breaks_draw_line.
      change (page_breaks [Pdf.ShowPage]) with 1.
      rewrite !Nat2Z.inj_add, (IH (800 - 15)%Z) by lia.
      change (800 - 15 <? 50)%Z with false.
      change ((800 - 15 - 50) / 15 + 1)%Z with 50%Z. cbv iota.
      destruct (Z.leb_spec n 50); Z.div_mod_to_equations; lia.
    + rewrite page_breaks_app, page_breaks_draw_line. cbn [Nat.add].
      rewrite (IH (y - 15)%Z) by lia.
      destruct (Z.ltb_spec (y - 15) 50);
        destruct (Z.leb_spec (Z.succ n) ((y - 50) / 15 + 1));
        try destruct (Z.leb_spec n ((y - 15 - 50) / 15 + 1));
        Z.div_mod_to_equations; lia.
Qed.

Lemma drawn_texts_app (a b : list Pdf.op) :
  drawn_texts (a ++ b) = drawn_texts a ++ drawn_texts b.
Proof.
  unfold drawn_texts. apply flat_map_app.
Qed.

Lemma drawn_texts_draw_line (y : Z) (cells : list string) :
  List.length cells = 5 -> drawn_texts (draw_line y cells) = cells.
Proof.
  intros H.
  do 5 (destruct cells as [|? cells]; [discriminate|]).
  destruct cells; [reflexivity | discriminate].
Qed.

Lemma drawn_texts_pdf_lines (cells : Transaction.t -> list string)
  (txs : list Transaction.t) (y : Z) :
  (forall x, List.length (cells x) = 5) ->
  drawn_texts (pdf_lines cells y txs) = List.concat (map cells txs).
Proof.
  intros Hc. revert y. induction txs as [|t r IH]; intros y; [reflexivity|].
  cbn [pdf_lines map List.concat]. destruct (y <? 50)%Z.
  - change (Pdf.ShowPage :: draw_line 800 (cells t)
              ++ pdf_lines cells (800 - 15) r)
      with ([Pdf.ShowPage] ++ draw_line 800 (cells t)
              ++ pdf_lines cells (800 - 15) r).
    rewrite !drawn_texts_app, drawn_texts_draw_line, IH by apply Hc.
    reflexivity.
  - rewrite drawn_texts_app, drawn_texts_draw_line, IH by apply Hc.
    reflexivity.
Qed.

Lemma export_pdf_ops_lines
  (order_by : list Transaction.t -> list Transaction.t) (db : Db) (u : nat) :
  export_pdf_ops order_by format_2f db u
  = ([Pdf.SetFont "Helvetica-Bold" 16;
      Pdf.DrawString 100 800 "Transaction History";
      Pdf.SetFont "Helvetica-Bold" 12]
     ++ draw_line 770 pdf_headers ++ [Pdf.SetFont "Helvetica" 10])
    ++ pdf_lines (pdf_cells format_2f db) 750
                 (order_by (transactions_of db u))
    ++ [Pdf.ShowPage; Pdf.Save].
Proof.
  unfold export_pdf_ops. cbv zeta. rewrite pdf_fold.
  change (770 - 20)%Z with 750%Z. rewrite <- !app_assoc. reflexivity.
Qed.

(** X21. Every text of the PDF export is drawn between the bottom margin 50
    and the top 800, whatever the number of transactions, and in one of the
    five fixed columns (the title apart, at column 100). *)
Theorem pdf_within_margins
  (order_by : list Transaction.t -> list Transaction.t) (db : Db) (u : nat)
  (x : nat) (y : Z) (s : string) :
  In (Pdf.DrawString x y s) (export_pdf_ops order_by format_2f db u) ->
  (50 <= y <= 800)%Z /\ (In x x_positions \/ x = 100).
Proof.
  rewrite export_pdf_ops_lines. intros H.
  apply in_app_or in H. destruct H as [H | H].
  - apply in_app_or in H. destruct H as [H | H].
    + simpl in H. destruct H as [H | [H | [H | []]]]; try discriminate.
      inversion H. subst. split; [lia | right; reflexivity].
    + apply in_app_or in H. destruct H as [H | H].
      * apply draw_line_y in H. destruct H as [-> Hx].
        split; [lia | left; exact Hx].
      * simpl in H. destruct H as [H | []]. discriminate.
  - apply in_app_or in H. destruct H as [H | H].
    + apply pdf_lines_margins in H; [|lia]. tauto.
    + simpl in H. destruct H as [H | [H | []]]; discriminate.
Qed.

(** X22. The PDF export draws the title, the five headers and then, for each
    of the caller's transactions in query order, its five texts, nothing
    else; the last two canvas calls close the page and save. *)
Theorem pdf_content
  (order_by : list Transaction.t -> list Transaction.t) (db : Db) (u : nat) :
  drawn_texts (export_pdf_ops order_by format_2f db u)
  = "Transaction History"
      :: pdf_headers
      ++ List.concat (map (pdf_cells format_2f db)
                     (order_by (transactions_of db u)))
  /\ exists ops,
       export_pdf_ops order_by format_2f db u
       = ops ++ [Pdf.ShowPage; Pdf.Save].
Proof.
  rewrite export_pdf_ops_lines. split.
  - rewrite !drawn_texts_app, drawn_texts_pdf_lines by reflexivity.
    cbn. rewrite app_nil_r. reflexivity.
  - eexists. rewrite app_assoc. reflexivity.
Qed.

(** X23. The PDF export of [n] transactions has [1 + (n + 3) / 51] pages: the
    first page takes 47 lines below the headers, every further page 51. *)
Theorem pdf_page_count
  (order_by : list Transaction.t -> list Transaction.t) (db : Db) (u : nat) :
  order_by_contract order_by ->
  page_breaks (export_pdf_ops order_by format_2f db u)
  = 1 + (List.length (transactions_of db u) + 3) / 51.
Proof.
  intros Hc. rewrite export_pdf_ops_lines, !page_breaks_app.
  rewrite (Permutation_length (proj1 (Hc (transactions_of db u)))).
  set (l := order_by (transactions_of db u)).
  pose proof (pdf_lines_breaks (pdf_cells format_2f db) l 750) as H.
  change (750 <? 50)%Z with false in H.
  change ((750 - 50) / 15 + 1)%Z with 47%Z in H. cbv iota in H.
  specialize (H ltac:(lia)).
  rewrite page_breaks_draw_line.
  change (page_breaks [Pdf.SetFont "Helvetica-Bold" 16;
                       Pdf.DrawString 100 800 "Transaction History";
                       Pdf.SetFont "Helvetica-Bold" 12]) with 0.
  change (page_breaks [Pdf.SetFont "Helvetica" 10]) with 0.
  change (page_breaks [Pdf.ShowPage; Pdf.Save]) with 1.
  apply Nat2Z.inj. rewrite !Nat2Z.inj_add, Nat2Z.inj_div, Nat2Z.inj_add, H.
  destruct (Z.leb_spec (Z.of_nat (List.length l)) 47);
    Z.div_mod_to_equations; lia.
Qed.

End PdfLayout.

(* ================================================================== *)
(** * What the listing and the dashboard show *)
(* ================================================================== *)

Section Listing.

Variable order_by : list Transaction.t -> list Transaction.t.
Hypothesis order_by_ok : order_by_contract order_by.

Lemma in_firstn (A : Type) (n : nat) (l : list A) (x : A) :
  In x (firstn n l) -> In x l.
Proof.
  intros H. rewrite <- (firstn_skipn n l). apply in_or_app. left. exact H.
Qed.

Lemma in_skipn (A : Type) (n : nat) (l : list A) (x : A) :
  In x (skipn n l) -> In x l.
Proof.
  intros H. rewrite <- (firstn_skipn n l). apply in_or_app. right. exact H.
Qed.

Lemma join_category_fst (cats : list Category.t) (q : list Transaction.t)
  (row : Transaction.t * option Category.t) :
  In row (join_category cats q) -> In (fst row) q.
Proof.
  unfold join_category. intros H. apply in_flat_map in H.
  destruct H as [x [Hx Hin]].
  destruct (filter _ cats) as [|c cs].
  - destruct Hin as [<- | []]. exact Hx.
  - apply in_map_iff in Hin. destruct Hin as [c' [<- _]]. exact Hx.
Qed.

Lemma search_subset (db : Db) (s : string) (q : list Transaction.t)
  (x : Transaction.t) :
  In x (search db s q) -> In x q.
Proof.
  unfold search. intros H. apply in_map_iff in H.
  destruct H as [row [<- Hin]]. apply filter_In in Hin.
  exact (join_category_fst _ _ _ (proj1 Hin)).
Qed.

Lemma listing_query_owned (db : Db) (u : nat) (args : Args)
  (x : Transaction.t) :
  In x (listing_query order_by db u args) ->
  In x (transaction_table db) /\ Transaction.user_id x = u.
Proof.
  unfold listing_query. intros H.
  match type of H with
  | In _ (order_by ?q) =>
      apply (Permutation_in _ (Permutation_sym (proj1 (order_by_ok q)))) in H
  end.
  assert (Hm : In x (transactions_of db u)).
  { destruct (Text.truthy _); [exact (search_subset _ _ _ _ H) | exact H]. }
  apply filter_In in Hm. destruct Hm as [Hin Hu].
  apply Nat.eqb_eq in Hu. auto.
Qed.

(** X1. Whatever the page and the filter, a listing page shows only rows of
    the table that belong to the caller, at most 20 of them, never more than
    the total it reports, and a page other than page 1 is never empty. *)
Theorem listing_page_scoped (db : Db) (u : nat) (args : Args)
  (p : Pagination) :
  transactions order_by db u args = RenderListing p ->
  (forall x, In x (items p) ->
             In x (transaction_table db) /\ Transaction.user_id x = u)
  /\ List.length (items p) <= 20
  /\ List.length (items p) <= total p
  /\ (page p <> 1%Z -> items p <> []).
Proof.
  unfold transactions, paginate. intros H.
  set (l := listing_query order_by db u args) in *.
  set (pg := match arg_page args with Some z => z | None => 1%Z end) in *.
  set (off := (Z.to_nat pg - 1) * 20) in *.
  assert (Hsub : forall x, In x (firstn 20 (skipn off l)) ->
                           In x (transaction_table db)
                           /\ Transaction.user_id x = u).
  { intros x Hx. apply (listing_query_owned db u args).
    fold l. eapply in_skipn. eapply in_firstn. exact Hx. }
  assert (Hlen : List.length (firstn 20 (skipn off l)) <= List.length l).
  { rewrite length_firstn, length_skipn. lia. }
  destruct (pg <? 1)%Z; [discriminate|].
  destruct (firstn 20 (skipn off l)) as [|a r] eqn:E.
  - destruct (Z.eqb_spec pg 1) as [E1 | _]; [|discriminate].
    inversion H. subst p. cbn [items total page].
    split; [intros x []|]. split; [simpl; lia|]. split; [simpl; lia|].
    intros Hp. exfalso. exact (Hp E1).
  - inversion H. subst p. cbn [items total page].
    split; [exact Hsub|]. split; [rewrite <- E; apply firstn_le_length|].
    split; [exact Hlen | discriminate].
Qed.

Lemma lstrip_blank (s : string) : blank s = true -> Text.lstrip s = EmptyString.
Proof.
  induction s as [|c r IH]; simpl; [reflexivity|].
  intros H. apply andb_true_iff in H. destruct H as [Hc Hr].
  rewrite Hc. exact (IH Hr).
Qed.

(** X2. A filter of white space only is no filter: the listing answers as it
    does without the parameter [q]. *)
Theorem blank_filter_is_no_filter (db : Db) (u : nat) (pg : option Z)
  (q : string) :
  blank q = true ->
  transactions order_by db u (mkArgs pg (Some q))
  = transactions order_by db u (mkArgs pg None).
Proof.
  intros H. unfold transactions, listing_query. cbn [arg_q arg_page].
  unfold Text.strip. rewrite (lstrip_blank q H). reflexivity.
Qed.





Lemma sorted_app_cross (l1 l2 : list Transaction.t) :
  date_desc (l1 ++ l2) ->
  forall a b, In a l1 -> In b l2 ->
              Date.leb (Transaction.date b) (Transaction.date a) = true.
Proof.
  unfold date_desc. induction l1 as [|h r IH]; simpl; intros Hs a b Ha Hb;
    [contradiction|].
  inversion Hs as [|? ? Hs' Hall]. subst.
  destruct Ha as [<- | Ha].
  - rewrite Forall_forall in Hall. apply Hall. apply in_or_app. right.
    exact Hb.
  - exact (IH Hs' a b Ha Hb).
Qed.

Lemma sorted_app_left (l1 l2 : list Transaction.t) :
  date_desc (l1 ++ l2) -> date_desc l1.
Proof.
  unfold date_desc. induction l1 as [|h r IH]; simpl; intros Hs;
    [constructor|].
  inversion Hs as [|? ? Hs' Hall]. subst.
  constructor; [exact (IH Hs')|].
  rewrite Forall_forall in *. intros y Hy. apply Hall.
  apply in_or_app. left. exact Hy.
Qed.

(** X5. The dashboard shows at most ten transactions, all of them the
    caller's, latest first; a transaction of the caller that is not shown is
    dated no later than any that is shown; and a caller with at most ten
    transactions sees them all. *)
Theorem dashboard_recent (float_sum : list float -> float) (db : Db)
  (u : nat) :
  exists recent inc exp bal,
    dashboard order_by float_sum db u = RenderDashboard recent inc exp bal
    /\ List.length recent <= 10
    /\ date_desc recent
    /\ (forall x, In x recent ->
                  In x (transaction_table db) /\ Transaction.user_id x = u)
    /\ (forall x y, In x (transactions_of db u) -> ~ In x recent ->
                    In y recent ->
                    Date.leb (Transaction.date x) (Transaction.date y) = true)
    /\ (List.length (transactions_of db u) <= 10 ->
        Permutation recent (transactions_of db u)).
Proof.
  unfold dashboard. do 4 eexists. split; [reflexivity|].
  destruct (order_by_ok (transactions_of db u)) as [Hperm Hsort].
  set (l := order_by (transactions_of db u)) in *.
  split; [apply firstn_le_length|].
  rewrite <- (firstn_skipn 10 l) in Hsort.
  split; [exact (sorted_app_left _ _ Hsort)|].
  split; [|split].
  - intros x Hx. apply in_firstn in Hx.
    apply (Permutation_in _ (Permutation_sym Hperm)) in Hx.
    apply filter_In in Hx. destruct Hx as [Hin Hu].
    apply Nat.eqb_eq in Hu. auto.
  - intros x y Hx Hnot Hy.
    apply (Permutation_in _ Hperm) in Hx.
    rewrite <- (firstn_skipn 10 l) in Hx. apply in_app_or in Hx.
    destruct Hx as [Hx | Hx]; [contradiction|].
    exact (sorted_app_cross _ _ Hsort y x Hy Hx).
  - intros Hlen. rewrite firstn_all2.
    + symmetry. exact Hperm.
    + rewrite <- (Permutation_length Hperm). exact Hlen.
Qed.

(** X4. Row number [i] (from 0) of the ordered result is item [i mod 20] of
    page [i / 20 + 1]: every row is reachable on exactly that page. *)
Theorem listing_row_page (db : Db) (u : nat) (q : option string) (i : nat)
  (x : Transaction.t) :
  nth_error (listing_query order_by db u (mkArgs None q)) i = Some x ->
  exists p,
    transactions order_by db u (mkArgs (Some (Z.of_nat (i / 20 + 1))) q)
    = RenderListing p
    /\ nth_error (items p) (i mod 20) = Some x
    /\ page p = Z.of_nat (i / 20 + 1).
Proof.
  intros Hn. unfold transactions. cbn [arg_page].
  change (listing_query order_by db u
            (mkArgs (Some (Z.of_nat (i / 20 + 1))) q))
    with (listing_query order_by db u (mkArgs None q)).
  set (l := listing_query order_by db u (mkArgs None q)) in *.
  assert (Hi : i < List.length l)
    by (apply nth_error_Some; congruence).
  assert (Hoff : (Z.to_nat (Z.of_nat (i / 20 + 1)) - 1) * 20 = i / 20 * 20)
    by (rewrite Nat2Z.id; lia).
  pose proof (Nat.div_mod_eq i 20) as Hdm.
  pose proof (Nat.mod_upper_bound i 20 ltac:(lia)) as Hm.
  rewrite (paginate_inside l _ 19); [|lia | rewrite Hoff; lia].
  eexists. split; [reflexivity|]. cbn [items page]. split; [|reflexivity].
  rewrite Hoff, nth_error_firstn.
  destruct (Nat.ltb_spec (i mod 20) 20); [|lia].
  rewrite nth_error_skipn. replace (i / 20 * 20 + i mod 20) with i by lia.
  exact Hn.
Qed.

End Listing.

(* ================================================================== *)
(** * What a request changes, and what it leaves alone *)
(* ================================================================== *)

Section Effects.






End Effects.

Section RowEffects.

Lemma find_map_same (A : Type) (p : A -> bool) (f : A -> A) (l : list A) :
  (forall y, p (f y) = p y) ->
  find p (map f l) = option_map f (find p l).
Proof.
  intros H. induction l as [|a l IH]; simpl; [reflexivity|].
  rewrite H. destruct (p a); [reflexivity | exact IH].
Qed.

Lemma find_snoc_new (A : Type) (p : A -> bool) (l : list A) (x : A) :
  (forall y, In y l -> p y = false) -> p x = true ->
  find p (l ++ [x]) = Some x.
Proof.
  induction l as [|a l IH]; simpl; intros H Hx.
  - rewrite Hx. reflexivity.
  - rewrite (H a (or_introl eq_refl)). apply IH; [|exact Hx].
    intros y Hy. apply H. right. exact Hy.
Qed.

Lemma find_none_all (A : Type) (p : A -> bool) (l : list A) :
  (forall y, In y l -> p y = false) -> find p l = None.
Proof.
  induction l as [|a l IH]; simpl; intros H; [reflexivity|].
  rewrite (H a (or_introl eq_refl)). apply IH.
  intros y Hy. apply H. right. exact Hy.
Qed.

Lemma validate_inr_type (choices : list nat)
  (init : TransactionForm.initial) (p : TransactionForm.post)
  (d : TransactionForm.data) :
  TransactionForm.validate choices init p = inr d ->
  In (TransactionForm.type_data d) TransactionForm.type_choices.
Proof.
  unfold TransactionForm.validate.
  destruct (TransactionForm.csrf_ok p);
    destruct (TransactionForm.check_amount init p);
    destruct (TransactionForm.check_type init p) as [ty|] eqn:E;
    destruct (TransactionForm.check_category choices p);
    destruct (TransactionForm.check_date init p);
    intros H; inversion H. subst. cbn [TransactionForm.type_data].
  unfold TransactionForm.check_type in E.
  destruct (match TransactionForm.type p with
            | Some s => Some s
            | None => TransactionForm.type0 init
            end) as [s|]; [|discriminate].
  destruct (existsb (String.eqb s) TransactionForm.type_choices) eqn:Ex;
    [|discriminate].
  inversion E. subst. apply existsb_exists in Ex.
  destruct Ex as [s' [Hin Hs]]. apply String.eqb_eq in Hs. subst. exact Hin.
Qed.

(** X9. A successful update of transaction [i] keeps the categories, the
    keys and the owners of all rows, leaves every row with another key as it
    was, and afterwards the caller finds under [i] a row whose amount is
    neither zero nor NaN, whose type is 'expense' or 'income' and whose
    category, if any, is one of the caller's own. *)
Theorem edit_transaction_effect (db : Db) (u i : nat)
  (p : TransactionForm.post) (e f : string) (db' : Db) :
  edit_transaction db u i (Post p) = (Redirect e f, db') ->
  category_table db' = category_table db
  /\ map Transaction.id (transaction_table db')
     = map Transaction.id (transaction_table db)
  /\ map Transaction.user_id (transaction_table db')
     = map Transaction.user_id (transaction_table db)
  /\ (forall y, In y (transaction_table db) -> Transaction.id y <> i ->
                In y (transaction_table db'))
  /\ exists x',
       get_transaction db' u i = Some x'
       /\ (Transaction.amount x' =? 0)%float = false
       /\ is_nan (Transaction.amount x') = false
       /\ In (Transaction.type x') TransactionForm.type_choices
       /\ (forall k, Transaction.category_id x' = Some k ->
                     In k (category_choices db u)).
Proof.
  unfold edit_transaction.
  destruct (get_transaction db u i) as [x|] eqn:Hget; [|discriminate].
  destruct (get_transaction_some db u i x Hget) as [Hinx [Hix Hux]].
  destruct (TransactionForm.validate _ _ p) as [errs | d] eqn:Hv;
    [discriminate|].
  destruct (is_nan (TransactionForm.amount_data d)) eqn:Hnan;
    [discriminate|].
  intros H. inversion H. subst e f db'. clear H.
  cbn [category_table transaction_table].
  split; [reflexivity|]. split; [|split; [|split]].
  - rewrite map_map. apply map_ext. intros y.
    destruct (Transaction.id y =? Transaction.id x); reflexivity.
  - rewrite map_map. apply map_ext. intros y.
    destruct (Transaction.id y =? Transaction.id x); reflexivity.
  - intros y Hy Hne. apply in_map_iff. exists y. split; [|exact Hy].
    destruct (Nat.eqb_spec (Transaction.id y) (Transaction.id x));
      [congruence | reflexivity].
  - exists (update_transaction d x). split; [|split; [|split; [|split]]].
    + unfold get_transaction. cbn [transaction_table].
      rewrite find_map_same.
      * fold (get_transaction db u i). rewrite Hget. cbn [option_map].
        rewrite Nat.eqb_refl. reflexivity.
      * intros y.
        destruct (Transaction.id y =? Transaction.id x); reflexivity.
    + cbn [update_transaction Transaction.amount].
      apply validate_inr_amount in Hv.
      exact (check_amount_nonzero _ _ _ Hv).
    + cbn [update_transaction Transaction.amount]. exact Hnan.
    + cbn [update_transaction Transaction.type].
      exact (validate_inr_type _ _ _ _ Hv).
    + cbn [update_transaction Transaction.category_id]. intros k Hk.
      apply category_or_none_some in Hk. subst k.
      exact (validate_inr_category _ _ _ _ Hv).
Qed.

(** X10. An update that submits only a category keeps the stored amount,
    type, date and description of the transaction: fields that are not sent
    fall back to the values of the edited row.  The stored amount is one
    that a row can hold: not zero, and not NaN. *)
Theorem edit_keeps_unsent_fields (db : Db) (u i c : nat)
  (x : Transaction.t) :
  get_transaction db u i = Some x ->
  (Transaction.amount x =? 0)%float = false ->
  is_nan (Transaction.amount x) = false ->
  In (Transaction.type x) TransactionForm.type_choices ->
  In c (category_choices db u) ->
  exists db',
    edit_transaction db u i
      (Post (TransactionForm.mkPost true Absent None (Given c) Absent None))
    = (Redirect "transactions" "Transaction updated successfully.", db')
    /\ get_transaction db' u i
       = Some (Transaction.set_category_id (category_or_none c) x).
Proof.
  intros Hget Hnz Hnan Hty Hc. unfold edit_transaction. rewrite Hget.
  unfold TransactionForm.validate, TransactionForm.check_amount,
    TransactionForm.check_type, TransactionForm.check_category,
    TransactionForm.check_date, TransactionForm.description_of.
  cbn [TransactionForm.csrf_ok TransactionForm.amount TransactionForm.type
       TransactionForm.category TransactionForm.date
       TransactionForm.description TransactionForm.amount0
       TransactionForm.type0 TransactionForm.date0
       TransactionForm.description0 process].
  rewrite Hnz.
  assert (Hex : existsb (String.eqb (Transaction.type x))
                        TransactionForm.type_choices = true).
  { apply existsb_exists. exists (Transaction.type x).
    split; [exact Hty | apply String.eqb_refl]. }
  assert (Hex2 : existsb (Nat.eqb c) (category_choices db u) = true).
  { apply existsb_exists. exists c. split; [exact Hc | apply Nat.eqb_refl]. }
  rewrite Hex, Hex2. cbn [TransactionForm.amount_data]. rewrite Hnan.
  eexists. split; [reflexivity|].
  unfold get_transaction. cbn [transaction_table].
  rewrite find_map_same.
  - fold (get_transaction db u i). rewrite Hget. cbn [option_map].
    rewrite Nat.eqb_refl. reflexivity.
  - intros y. destruct (Transaction.id y =? Transaction.id x); reflexivity.
Qed.

(** X11. Deleting one's transaction [i] removes the rows with key [i] and no
    other, keeps the categories, and leaves nothing to find under [i]: a
    second delete is answered 404 and changes nothing. *)
Theorem delete_transaction_effect (db : Db) (u i : nat) (x : Transaction.t) :
  get_transaction db u i = Some x ->
  exists db',
    delete_transaction db u i
    = (Redirect "transactions" "Transaction deleted.", db')
    /\ category_table db' = category_table db
    /\ (forall y, In y (transaction_table db')
                  <-> In y (transaction_table db) /\ Transaction.id y <> i)
    /\ (forall v, get_transaction db' v i = None)
    /\ delete_transaction db' u i = (NotFound, db').
Proof.
  intros Hget. destruct (get_transaction_some db u i x Hget) as [_ [Hix _]].
  unfold delete_transaction at 1. rewrite Hget, Hix.
  eexists. split; [reflexivity|]. cbn [category_table transaction_table].
  split; [reflexivity|].
  assert (Hnone : forall v,
    get_transaction
      (mkDb (category_table db)
            (filter (fun y => negb (Transaction.id y =? i))
                    (transaction_table db))) v i = None).
  { intros v. unfold get_transaction. cbn [transaction_table].
    apply find_none_all. intros y Hy. apply filter_In in Hy.
    destruct Hy as [_ Hy]. apply negb_true_iff in Hy. rewrite Hy.
    reflexivity. }
  split; [|split; [exact Hnone|]].
  - intros y. rewrite filter_In, negb_true_iff, Nat.eqb_neq. reflexivity.
  - unfold delete_transaction. rewrite Hnone. reflexivity.
Qed.

(** X8. A successful create appends one row; its key is new, it belongs to
    the caller, the caller finds it under its key, and it is the last of
    the caller's transactions. *)
Theorem add_transaction_then_found (db : Db) (u : nat) (today : Date.t)
  (p : TransactionForm.post) (e f : string) (db' : Db) :
  add_transaction db u today (Post p) = (Redirect e f, db') ->
  exists x,
    db' = mkDb (category_table db) (transaction_table db ++ [x])
    /\ ~ In (Transaction.id x) (map Transaction.id (transaction_table db))
    /\ Transaction.user_id x = u
    /\ get_transaction db' u (Transaction.id x) = Some x
    /\ transactions_of db' u = transactions_of db u ++ [x].
Proof.
  unfold add_transaction.
  destruct (TransactionForm.validate _ _ p) as [errs | d]; [discriminate|].
  cbn [Transaction.amount].
  destruct (is_nan (TransactionForm.amount_data d)); [discriminate|].
  intros H. inversion H. subst e f db'. clear H.
  eexists. split; [reflexivity|]. cbn [Transaction.id Transaction.user_id].
  split; [apply next_id_fresh|]. split; [reflexivity|]. split.
  - unfold get_transaction. cbn [transaction_table].
    apply find_snoc_new.
    + intros y Hy. apply andb_false_iff. left. apply Nat.eqb_neq.
      intros E. apply (next_id_fresh (map Transaction.id
                                          (transaction_table db))).
      rewrite <- E. apply in_map. exact Hy.
    + cbn [Transaction.id Transaction.user_id]. rewrite !Nat.eqb_refl.
      reflexivity.
  - unfold transactions_of. cbn [transaction_table].
    rewrite filter_app. cbn [filter Transaction.user_id].
    rewrite Nat.eqb_refl. reflexivity.
Qed.

End RowEffects.

Section CategoryEffects.

Lemma truthy_rstrip (t : string) :
  Text.truthy (Text.rstrip t) = negb (blank t).
Proof.
  induction t as [|c r IH]; [reflexivity|].
  cbn [Text.rstrip blank].
  destruct (Text.rstrip r) as [|c' r'] eqn:E.
  - cbn [Text.truthy] in IH. symmetry in IH. apply negb_false_iff in IH.
    rewrite IH, andb_true_r. destruct (Text.is_space c); reflexivity.
  - cbn [Text.truthy] in IH. symmetry in IH. apply negb_true_iff in IH.
    rewrite IH, andb_false_r. reflexivity.
Qed.

Lemma blank_lstrip (s : string) : blank (Text.lstrip s) = blank s.
Proof.
  induction s as [|c r IH]; [reflexivity|].
  cbn [Text.lstrip blank]. destruct (Text.is_space c) eqn:E.
  - exact IH.
  - cbn [blank]. rewrite E. reflexivity.
Qed.

Lemma truthy_strip (s : string) :
  Text.truthy (Text.strip s) = negb (blank s).
Proof.
  unfold Text.strip. rewrite truthy_rstrip, blank_lstrip. reflexivity.
Qed.

Lemma check_name_rule (init : option string) (p : CategoryForm.post)
  (s : string) :
  CategoryForm.name p = Some s ->
  CategoryForm.check_name init p
  = if negb (blank s) && (String.length s <=? 64) then Some s else None.
Proof.
  intros H. unfold CategoryForm.check_name. rewrite H, truthy_strip.
  destruct s as [|c r]; [reflexivity|].
  cbn [String.length]. change (1 <=? S (String.length r)) with true.
  rewrite andb_true_r. reflexivity.
Qed.

Lemma snoc_not_same (A : Type) (l : list A) (x : A) : l ++ [x] <> l.
Proof.
  intros H. apply (f_equal (@List.length A)) in H.
  rewrite length_app in H. simpl in H. lia.
Qed.

(** X12. A category is added exactly when the form carries a valid token and
    a name that is not blank and at most 64 characters long.  Then the
    caller gets one more category, with that name and a new key, which is
    from then on a valid choice of the caller's transaction form; otherwise
    the form is shown again with an error and the store is unchanged. *)
Theorem add_category_rule (db : Db) (u : nat) (p : CategoryForm.post) :
  (forall s,
      CategoryForm.csrf_ok p = true -> CategoryForm.name p = Some s ->
      blank s = false -> String.length s <= 64 ->
      exists k,
        add_category db u (Post p)
        = (Redirect "add_transaction" "Category added",
           mkDb (category_table db ++ [Category.make k s u])
                (transaction_table db))
        /\ ~ In k (map Category.id (category_table db))
        /\ category_choices
             (mkDb (category_table db ++ [Category.make k s u])
                   (transaction_table db)) u
           = category_choices db u ++ [k])
  /\ (snd (add_category db u (Post p)) <> db ->
      CategoryForm.csrf_ok p = true
      /\ exists s, CategoryForm.name p = Some s
                   /\ blank s = false /\ String.length s <= 64)
  /\ (snd (add_category db u (Post p)) = db ->
      exists errs,
        add_category db u (Post p)
        = (RenderCategoryForm "add_category.html" errs None, db)
        /\ errs <> []).
Proof.
  split; [|split].
  - intros s Hcsrf Hn Hb Hl. unfold add_category, CategoryForm.validate.
    rewrite Hcsrf, (check_name_rule None p s Hn), Hb.
    destruct (Nat.leb_spec (String.length s) 64) as [_|Hgt]; [|lia].
    cbn [negb andb]. eexists. split; [reflexivity|].
    split; [apply next_id_fresh|].
    unfold category_choices, categories_of. cbn [category_table].
    rewrite filter_app, map_app. cbn [filter Category.user_id].
    rewrite Nat.eqb_refl. reflexivity.
  - unfold add_category, CategoryForm.validate.
    destruct (CategoryForm.csrf_ok p) eqn:Hcsrf.
    + destruct (CategoryForm.name p) as [s|] eqn:Hn.
      * rewrite (check_name_rule None p s Hn).
        destruct (blank s) eqn:Hb; cbn [negb andb snd];
          [intros H; contradiction H; reflexivity|].
        destruct (Nat.leb_spec (String.length s) 64) as [Hle|Hgt];
          cbn [snd]; [|intros H; contradiction H; reflexivity].
        intros _. split; [reflexivity|]. exists s. auto.
      * unfold CategoryForm.check_name. rewrite Hn. cbn [snd].
        intros H; contradiction H; reflexivity.
    + destruct (CategoryForm.check_name None p); cbn [snd];
        intros H; contradiction H; reflexivity.
  - unfold add_category, CategoryForm.validate.
    destruct (CategoryForm.csrf_ok p);
      destruct (CategoryForm.check_name None p) as [s|]; cbn [snd];
      intros H;
      try (exfalso; apply (f_equal category_table) in H;
           cbn [category_table] in H; exact (snoc_not_same _ _ _ H));
      eexists; (split; [reflexivity | discriminate]).
Qed.

(** X13. Renaming one's category [i] changes no transaction and no key, and
    from then on every transaction that referred to the category reads the
    new name, while references to other categories read what they read
    before. *)
Theorem rename_category_shows (db : Db) (u i : nat) (c : Category.t)
  (p : CategoryForm.post) (nm : string) :
  get_category db u i = Some c ->
  CategoryForm.csrf_ok p = true -> CategoryForm.name p = Some nm ->
  blank nm = false -> String.length nm <= 64 ->
  exists db',
    edit_category db u i (Post p)
    = (Redirect "add_transaction" "Category updated.", db')
    /\ transaction_table db' = transaction_table db
    /\ map Category.id (category_table db')
       = map Category.id (category_table db)
    /\ (forall x k,
          category_of db x = Some k ->
          category_of db' x
          = Some (if Category.id k =? i
                  then Category.make (Category.id k) nm (Category.user_id k)
                  else k)).
Proof.
  intros Hget Hcsrf Hn Hb Hl.
  destruct (get_category_some db u i c Hget) as [_ [Hic _]].
  unfold edit_category, CategoryForm.validate.
  rewrite Hget, Hcsrf, (check_name_rule _ p nm Hn), Hb.
  destruct (Nat.leb_spec (String.length nm) 64) as [_|Hgt]; [|lia].
  cbn [negb andb]. eexists. split; [reflexivity|].
  cbn [category_table transaction_table]. split; [reflexivity|]. split.
  - rewrite map_map. apply map_ext. intros k.
    destruct (Category.id k =? Category.id c); reflexivity.
  - intros x k Hk. unfold category_of in *. cbn [category_table].
    destruct (Transaction.category_id x) as [j|]; [|discriminate].
    rewrite find_map_same.
    + rewrite Hk. cbn [option_map]. rewrite Hic. reflexivity.
    + intros y. destruct (Category.id y =? Category.id c); reflexivity.
Qed.

End CategoryEffects.

(* ================================================================== *)
(** * Accounts and sessions *)
(* ================================================================== *)

Section Accounts.

Variable generate_password_hash : string -> string -> string.
Variable check_password_hash : string -> string -> bool.
Variable email_ok : string -> bool.

Lemma registration_data (p : RegistrationForm.post)
  (d : RegistrationForm.data) :
  RegistrationForm.validate email_ok p = inr d ->
  RegistrationForm.username p = Some (RegistrationForm.username_data d)
  /\ RegistrationForm.email p = Some (RegistrationForm.email_data d)
  /\ RegistrationForm.password p = Some (RegistrationForm.password_data d)
  /\ RegistrationForm.password2 p = Some (RegistrationForm.password_data d)
  /\ data_required (RegistrationForm.username_data d) = true
  /\ data_required (RegistrationForm.password_data d) = true
  /\ 3 <= String.length (RegistrationForm.username_data d) <= 64
  /\ 6 <= String.length (RegistrationForm.password_data d) <= 128
  /\ email_ok (RegistrationForm.email_data d) = true.
Proof.
  unfold RegistrationForm.validate, RegistrationForm.check_username,
    RegistrationForm.check_email, RegistrationForm.check_password,
    RegistrationForm.check_password2, length_between.
  destruct (RegistrationForm.csrf_ok p);
    destruct (RegistrationForm.username p) as [n|];
    destruct (RegistrationForm.email p) as [e|];
    destruct (RegistrationForm.password p) as [w|];
    destruct (RegistrationForm.password2 p) as [w2|];
    try discriminate;
    repeat match goal with
           | |- context [if ?b then _ else _] =>
               let E := fresh "E" in destruct b eqn:E
           end;
    try discriminate.
  intros H. inversion H. subst d.
  cbn [RegistrationForm.username_data RegistrationForm.email_data
       RegistrationForm.password_data].
  repeat match goal with
         | H : (_ && _) = true |- _ => apply andb_true_iff in H; destruct H
         | H : (_ <=? _) = true |- _ => apply Nat.leb_le in H
         | H : String.eqb _ _ = true |- _ => apply String.eqb_eq in H
         end.
  subst. repeat split; auto.
  match goal with
  | E : (if ?b then _ else _) = Some _ |- _ =>
      destruct b eqn:Eb; [|discriminate E]
  end.
  apply andb_true_iff in Eb. destruct Eb as [_ Eb].
  apply String.eqb_eq in Eb. subst. reflexivity.
Qed.

Lemma seed_from (uid : nat) (names : list string) (cats : list Category.t) :
  exists new,
    fold_left
      (fun acc nm =>
         acc ++ [Category.make (next_id (map Category.id acc)) nm uid])
      names cats
    = cats ++ new
    /\ map Category.name new = names
    /\ (forall c, In c new -> Category.user_id c = uid)
    /\ (NoDup (map Category.id cats) ->
        NoDup (map Category.id (cats ++ new))).
Proof.
  revert cats. induction names as [|n r IH]; intros cats.
  - exists []. simpl. rewrite app_nil_r. repeat split; auto.
    intros c [].
  - cbn [fold_left].
    destruct (IH (cats ++ [Category.make (next_id (map Category.id cats))
                                         n uid]))
      as [new [Hfold [Hnames [Hown Hnd]]]].
    exists (Category.make (next_id (map Category.id cats)) n uid :: new).
    rewrite Hfold, <- app_assoc. split; [reflexivity|].
    split; [simpl; rewrite Hnames; reflexivity|]. split.
    + intros c [<- | Hc]; [reflexivity | exact (Hown c Hc)].
    + intros Hcats.
      change (cats ++ Category.make (next_id (map Category.id cats)) n uid
                   :: new)
        with (cats ++ [Category.make (next_id (map Category.id cats)) n uid]
                   ++ new).
      rewrite app_assoc. apply Hnd. rewrite map_app. cbn [map Category.id].
      apply NoDup_snoc; [exact Hcats | apply next_id_fresh].
Qed.


(** X15. A successful registration adds one user with a new key and the
    submitted name and address, stores the hash of the submitted password,
    gives the user the six default categories Food, Transport, Bills,
    Salary, Shopping and Other, in this order after the existing ones and
    with unique keys, touches no transaction, and keeps the store
    consistent. *)
Theorem register_creates_account (app : App) (salt : string)
  (p : RegistrationForm.post) (f : option string) (app' : App) :
  register generate_password_hash email_ok app salt (Post p)
  = (AuthRedirect "login" f, app') ->
  exists u new,
    user_table app' = user_table app ++ [u]
    /\ ~ In (User.id u) (map User.id (user_table app))
    /\ RegistrationForm.username p = Some (User.username u)
    /\ RegistrationForm.email p = Some (User.email u)
    /\ (exists w, RegistrationForm.password p = Some w
                  /\ User.password_hash u = generate_password_hash salt w)
    /\ category_table (store app') = category_table (store app) ++ new
    /\ map Category.name new = default_categories
    /\ (forall c, In c new -> Category.user_id c = User.id u)
    /\ transaction_table (store app') = transaction_table (store app)
    /\ (consistent (store app) -> consistent (store app')).
Proof.
  unfold register.
  destruct (RegistrationForm.validate email_ok p) as [errs|d] eqn:Hv;
    [discriminate|].
  destruct (registration_data p d Hv) as [Hu [Hm [Hw _]]].
  destruct (find _ (user_table app)) as [u0|]; [discriminate|].
  intros H. inversion H. subst f app'. clear H.
  destruct (seed_from (next_id (map User.id (user_table app)))
                      default_categories (category_table (store app)))
    as [new [Hfold [Hnames [Hown Hnd]]]].
  eexists. exists new. cbn [user_table store category_table
                            transaction_table User.id User.username
                            User.email User.password_hash].
  split; [reflexivity|]. split; [apply next_id_fresh|].
  split; [exact Hu|]. split; [exact Hm|].
  split; [eexists; split; [exact Hw | reflexivity]|].
  split; [exact Hfold|]. split; [exact Hnames|]. split; [exact Hown|].
  split; [reflexivity|].
  intros [Hk [Ht Ho]]. unfold seed_categories.
  split; [|split].
  - cbn [category_table]. rewrite Hfold. exact (Hnd Hk).
  - exact Ht.
  - intros x k Hx Hc. cbn [category_table transaction_table] in *.
    destruct (Ho x k Hx Hc) as [c [Hin Hc']].
    exists c. split; [|exact Hc'].
    rewrite Hfold. apply in_or_app. left. exact Hin.
Qed.

(** X16. A login that redirects to the dashboard was made with the name of an
    account and a password accepted against that account's stored hash, and
    the session then holds that account's key: no other login changes the
    session. *)
Theorem login_sound (app : App) (session : option nat)
  (p : LoginForm.post) (resp : AuthResponse) (session' : option nat) :
  login check_password_hash app session (Post p) = (resp, session') ->
  (exists u n w,
      LoginForm.username p = Some n /\ LoginForm.password p = Some w
      /\ In u (user_table app) /\ User.username u = n
      /\ check_password_hash (User.password_hash u) w = true
      /\ resp = AuthRedirect "dashboard" (Some "Welcome back!")
      /\ session' = Some (User.id u))
  \/ (session' = session
      /\ exists errs flash, resp = AuthRender "login.html" errs flash).
Proof.
  unfold login, LoginForm.validate, LoginForm.check.
  destruct (LoginForm.csrf_ok p);
    destruct (LoginForm.username p) as [n|];
    destruct (LoginForm.password p) as [w|];
    try destruct (data_required n); try destruct (data_required w);
    try (intros H; inversion H; right; split; [reflexivity|];
         do 2 eexists; reflexivity).
  destruct (find _ (user_table app)) as [u|] eqn:F.
  - destruct (check_password_hash (User.password_hash u) w) eqn:C;
      intros H; inversion H; subst.
    + left. apply find_some in F. destruct F as [Hin Hn].
      apply String.eqb_eq in Hn.
      exists u, n, w. repeat split; auto.
    + right. split; [reflexivity|]. do 2 eexists. reflexivity.
  - intros H. inversion H. right. split; [reflexivity|].
    do 2 eexists. reflexivity.
Qed.

(** X17. Provided the password check accepts a password against its own
    hash, the credentials of a successful registration log in right away:
    the login redirects to the dashboard and the session holds the new
    user, who is then the current user. *)
Theorem register_then_login (app : App) (salt : string)
  (p : RegistrationForm.post) (f : option string) (app' : App)
  (session : option nat) :
  (forall s w, check_password_hash (generate_password_hash s w) w = true) ->
  register generate_password_hash email_ok app salt (Post p)
  = (AuthRedirect "login" f, app') ->
  exists u,
    user_table app' = user_table app ++ [u]
    /\ login check_password_hash app' session
             (Post (LoginForm.mkPost true (RegistrationForm.username p)
                                     (RegistrationForm.password p)))
       = (AuthRedirect "dashboard" (Some "Welcome back!"), Some (User.id u))
    /\ current_user app' (Some (User.id u)) = Some u.
Proof.
  intros Hhash. unfold register.
  destruct (RegistrationForm.validate email_ok p) as [errs|d] eqn:Hv;
    [discriminate|].
  destruct (registration_data p d Hv) as [Hu [_ [Hw [_ [Hru [Hrw _]]]]]].
  destruct (find _ (user_table app)) as [u0|] eqn:F; [discriminate|].
  intros H. inversion H. subst f app'. clear H.
  eexists. cbn [user_table]. split; [reflexivity|]. split.
  - unfold login, LoginForm.validate, LoginForm.check.
    cbn [LoginForm.csrf_ok LoginForm.username LoginForm.password user_table].
    rewrite Hu, Hw, Hru, Hrw.
    rewrite find_snoc_new.
    + cbn [User.password_hash User.id]. rewrite Hhash. reflexivity.
    + intros y Hy. pose proof (find_none _ _ F y Hy) as Hf.
      apply orb_false_iff in Hf. exact (proj1 Hf).
    + cbn [User.username]. apply String.eqb_refl.
  - unfold current_user. cbn [user_table]. apply find_snoc_new.
    + intros y Hy. apply Nat.eqb_neq. intros E.
      apply (next_id_fresh (map User.id (user_table app))).
      cbn [User.id] in E. rewrite <- E. apply in_map. exact Hy.
    + cbn [User.id]. apply Nat.eqb_refl.
Qed.

End Accounts.

Section Sessions.

(** X18. After a request to [/logout] nobody is logged in, whatever the
    session held before, and the index then shows the landing page instead
    of redirecting to the dashboard. *)
Theorem logout_clears (app : App) (session : option nat) :
  current_user app (snd (logout app session)) = None
  /\ index app (snd (logout app session)) = AuthRender "index.html" [] None.
Proof.
  unfold logout, index.
  destruct (current_user app session) eqn:E; cbn [snd].
  - split; reflexivity.
  - rewrite E. split; reflexivity.
Qed.

End Sessions.

(* ================================================================== *)
(** * Records of the CSV export *)
(* ================================================================== *)

Section CsvRecords.

Variable repr : float -> string.







(** X20. The CSV export has one record for the header and one for each row
    the unfiltered listing counts, and for a caller without transactions it
    is the header line alone. *)
Theorem export_matches_listing
  (order_by : list Transaction.t -> list Transaction.t) (db : Db) (u : nat) :
  order_by_contract order_by ->
  (exists p,
      transactions order_by db u (mkArgs None None) = RenderListing p
      /\ List.length (export_csv_rows order_by db u) = S (total p))
  /\ (transactions_of db u = [] ->
      forall args,
        export_csv order_by repr db u args
        = SendFile "text/csv" "transactions.csv"
                   ("Date,Type,Amount,Category,Description" ++ crlf)%string).
Proof.
  intros Hc. split.
  - unfold transactions. cbn [arg_page]. rewrite paginate_first.
    eexists. split; [reflexivity|]. cbn [total].
    unfold export_csv_rows, listing_query. cbn [arg_q Text.strip
      Text.lstrip Text.rstrip Text.truthy List.length].
    rewrite length_map. reflexivity.
  - intros Hnil args. unfold export_csv, export_csv_rows.
    destruct (Hc (transactions_of db u)) as [Hperm _].
    rewrite Hnil in Hperm. apply Permutation_nil in Hperm.
    rewrite Hnil, Hperm. reflexivity.
Qed.

End CsvRecords.

(* ================================================================== *)
(** * Further instances on the sample stores *)
(* ================================================================== *)

Section MoreSamples.

Lemma pdf_within_margins_witness :
  (50 <= 750 <= 800)%Z /\ (In 50 x_positions \/ 50 = 100).
Proof.
  apply (pdf_within_margins format_whole stable_order small_ledger 1
                            50 750%Z "2024-01-05").
  vm_compute. tauto.
Defined.

Lemma pdf_page_count_witness :
  page_breaks (export_pdf_ops stable_order format_whole same_day_ledger 1)
  = 1 + (List.length (transactions_of same_day_ledger 1) + 3) / 51.
Proof.
  apply (pdf_page_count format_whole stable_order same_day_ledger 1).
  exact stable_order_contract.
Defined.

Lemma listing_page_scoped_witness :
  List.length (items (mkPagination [groceries; rent] 1 20 2)) <= 20.
Proof.
  refine (proj1 (proj2 (listing_page_scoped stable_order
                          stable_order_contract small_ledger 1
                          (mkArgs None None)
                          (mkPagination [groceries; rent] 1 20 2) _))).
  reflexivity.
Defined.

Lemma blank_filter_is_no_filter_witness :
  transactions stable_order small_ledger 1 (mkArgs None (Some "   "))
  = transactions stable_order small_ledger 1 (mkArgs None None).
Proof.
  apply (blank_filter_is_no_filter stable_order small_ledger 1 None "   ").
  reflexivity.
Defined.


Lemma dashboard_recent_witness :
  exists recent inc exp bal,
    dashboard stable_order sequential_sum small_ledger 1
    = RenderDashboard recent inc exp bal
    /\ List.length recent <= 10
    /\ date_desc recent
    /\ (forall x, In x recent ->
                  In x (transaction_table small_ledger)
                  /\ Transaction.user_id x = 1)
    /\ (forall x y, In x (transactions_of small_ledger 1) -> ~ In x recent ->
                    In y recent ->
                    Date.leb (Transaction.date x) (Transaction.date y) = true)
    /\ (List.length (transactions_of small_ledger 1) <= 10 ->
        Permutation recent (transactions_of small_ledger 1)).
Proof.
  apply (dashboard_recent stable_order stable_order_contract sequential_sum
                          small_ledger 1).
Defined.

Lemma listing_row_page_witness :
  exists p,
    transactions stable_order same_day_ledger 1
                 (mkArgs (Some (Z.of_nat (20 / 20 + 1))) None)
    = RenderListing p
    /\ nth_error (items p) (20 mod 20)
       = Some (Transaction.make 21 1%float "expense" None jan5 None 1)
    /\ page p = Z.of_nat (20 / 20 + 1).
Proof.
  apply (listing_row_page stable_order same_day_ledger 1 None 20).
  reflexivity.
Defined.


Lemma edit_transaction_effect_witness :
  category_table
    (snd (edit_transaction small_ledger 1 1 (Post (post_with_amount 7%float))))
  = category_table small_ledger.
Proof.
  refine (proj1 (edit_transaction_effect small_ledger 1 1
                   (post_with_amount 7%float) "transactions"
                   "Transaction updated successfully." _ _)).
  reflexivity.
Defined.

Lemma edit_keeps_unsent_fields_witness :
  exists db',
    edit_transaction small_ledger 1 2
      (Post (TransactionForm.mkPost true Absent None (Given 1) Absent None))
    = (Redirect "transactions" "Transaction updated successfully.", db')
    /\ get_transaction db' 1 2
       = Some (Transaction.set_category_id (category_or_none 1) rent).
Proof.
  apply (edit_keeps_unsent_fields small_ledger 1 2 1 rent).
  - reflexivity.
  - reflexivity.
  - reflexivity.
  - simpl. tauto.
  - simpl. tauto.
Defined.

Lemma delete_transaction_effect_witness :
  exists db',
    delete_transaction small_ledger 1 2
    = (Redirect "transactions" "Transaction deleted.", db')
    /\ category_table db' = category_table small_ledger
    /\ (forall y, In y (transaction_table db')
                  <-> In y (transaction_table small_ledger)
                      /\ Transaction.id y <> 2)
    /\ (forall v, get_transaction db' v 2 = None)
    /\ delete_transaction db' 1 2 = (NotFound, db').
Proof.
  apply (delete_transaction_effect small_ledger 1 2 rent). reflexivity.
Defined.

Lemma add_transaction_then_found_witness :
  exists x,
    snd (add_transaction small_ledger 1 jan5 (Post (post_with_amount 7%float)))
    = mkDb (category_table small_ledger)
           (transaction_table small_ledger ++ [x])
    /\ ~ In (Transaction.id x)
            (map Transaction.id (transaction_table small_ledger))
    /\ Transaction.user_id x = 1
    /\ get_transaction
         (snd (add_transaction small_ledger 1 jan5
                               (Post (post_with_amount 7%float))))
         1 (Transaction.id x) = Some x
    /\ transactions_of
         (snd (add_transaction small_ledger 1 jan5
                               (Post (post_with_amount 7%float)))) 1
       = transactions_of small_ledger 1 ++ [x].
Proof.
  apply (add_transaction_then_found small_ledger 1 jan5
           (post_with_amount 7%float) "transactions" "Transaction added").
  reflexivity.
Defined.

Lemma rename_category_shows_witness :
  exists db',
    edit_category small_ledger 1 1
                  (Post (CategoryForm.mkPost true (Some "Groceries")))
    = (Redirect "add_transaction" "Category updated.", db')
    /\ transaction_table db' = transaction_table small_ledger
    /\ map Category.id (category_table db')
       = map Category.id (category_table small_ledger)
    /\ (forall x k,
          category_of small_ledger x = Some k ->
          category_of db' x
          = Some (if Category.id k =? 1
                  then Category.make (Category.id k) "Groceries"
                                     (Category.user_id k)
                  else k)).
Proof.
  apply (rename_category_shows small_ledger 1 1 food
           (CategoryForm.mkPost true (Some "Groceries")) "Groceries").
  - reflexivity.
  - reflexivity.
  - reflexivity.
  - reflexivity.
  - simpl. lia.
Defined.



Lemma register_creates_account_witness :
  exists u new,
    user_table
      (snd (register toy_hash toy_email_ok empty_app "salt"
                     (Post alice_post)))
    = user_table empty_app ++ [u]
    /\ ~ In (User.id u) (map User.id (user_table empty_app))
    /\ RegistrationForm.username alice_post = Some (User.username u)
    /\ RegistrationForm.email alice_post = Some (User.email u)
    /\ (exists w, RegistrationForm.password alice_post = Some w
                  /\ User.password_hash u = toy_hash "salt" w)
    /\ category_table
         (store (snd (register toy_hash toy_email_ok empty_app "salt"
                               (Post alice_post))))
       = category_table (store empty_app) ++ new
    /\ map Category.name new = default_categories
    /\ (forall c, In c new -> Category.user_id c = User.id u)
    /\ transaction_table
         (store (snd (register toy_hash toy_email_ok empty_app "salt"
                               (Post alice_post))))
       = transaction_table (store empty_app)
    /\ (consistent (store empty_app) ->
        consistent
          (store (snd (register toy_hash toy_email_ok empty_app "salt"
                                (Post alice_post))))).
Proof.
  apply (register_creates_account toy_hash toy_email_ok empty_app "salt"
           alice_post (Some "Account created. Please login.")).
  reflexivity.
Defined.

Lemma login_sound_witness :
  exists u,
    In u (user_table
            (snd (register toy_hash toy_email_ok empty_app "salt"
                           (Post alice_post))))
    /\ User.username u = "alice"
    /\ toy_check (User.password_hash u) "s3cret!" = true.
Proof.
  destruct (login_sound toy_check
              (snd (register toy_hash toy_email_ok empty_app "salt"
                             (Post alice_post)))
              None (LoginForm.mkPost true (Some "alice") (Some "s3cret!"))
              (AuthRedirect "dashboard" (Some "Welcome back!")) (Some 1)
              eq_refl)
    as [[u [n [w [Hn [Hw [Hin [Hu [Hc _]]]]]]]] | [H _]].
  - exists u. inversion Hn. inversion Hw. subst. auto.
  - discriminate H.
Defined.

Lemma register_then_login_witness :
  exists u,
    user_table
      (snd (register toy_hash toy_email_ok empty_app "salt"
                     (Post alice_post)))
    = user_table empty_app ++ [u]
    /\ login toy_check
             (snd (register toy_hash toy_email_ok empty_app "salt"
                            (Post alice_post)))
             None
             (Post (LoginForm.mkPost true
                      (RegistrationForm.username alice_post)
                      (RegistrationForm.password alice_post)))
       = (AuthRedirect "dashboard" (Some "Welcome back!"), Some (User.id u))
    /\ current_user
         (snd (register toy_hash toy_email_ok empty_app "salt"
                        (Post alice_post)))
         (Some (User.id u)) = Some u.
Proof.
  apply (register_then_login toy_hash toy_check toy_email_ok empty_app
           "salt" alice_post (Some "Account created. Please login.")).
  - intros s w. unfold toy_check, toy_hash. apply String.eqb_refl.
  - reflexivity.
Defined.

Lemma export_matches_listing_witness :
  exists p,
    transactions stable_order small_ledger 1 (mkArgs None None)
    = RenderListing p
    /\ List.length (export_csv_rows stable_order small_ledger 1)
       = S (total p).
Proof.
  refine (proj1 (export_matches_listing repr_whole stable_order
                   small_ledger 1 _)).
  exact stable_order_contract.
Defined.

(** A description with a comma, a quote and a line break is written in
    quotes, the quote doubled. *)
Lemma awkward_description_example :
  Csv.writerow repr_whole (csv_row small_ledger awkward)
  = ("2024-01-05,expense,12.0,,"
     ++ String Csv.dquote
          (String "a" (String "," (String Csv.dquote (String Csv.dquote
             (String Csv.lf (String "b" (String Csv.dquote crlf)))))))
    )%string.
Proof.
  reflexivity.
Qed.

End MoreSamples.
